(** * The OCPP message router and two of its handlers

    A shallow embedding of [manager/mqtt/router.go] ([Router.Route]), of
    the v1.6 Authorize handler of package [handlers/ocpp16]
    ([AuthorizeHandler.HandleCall]) and of
    [manager/handlers/ocpp16/reservation.go]
    ([ReservationResultHandler.HandleCallResult]), with the properties the
    specification states about them.

    Go values are modelled as follows.
    - An interface value is either nil or a value with a dynamic type; a
      pointer stored in an interface may itself be nil (a "typed nil"),
      which is a non-nil interface value.
    - A function returning [error] returns [option error]; [None] is nil.
    - A [[]byte] is a [list byte]; a Go map with string keys is a [gmap].
    - Code that logs, emits or calls a handler runs in a state monad over
      the emitter trace, the process log and an abstract world that the
      handlers own; a failed type assertion or nil dereference panics. *)

From Stdlib Require Import ZArith.
From Stdlib.Strings Require Import Byte.
From stdpp Require Import base option strings gmap list.

Local Open Scope string_scope.

Definition bytes : Set := list byte.

(** ** Package [errors] and the error values the router builds *)

Module goerrors.

(** The closed set of OCPP error codes (package [mqtt], [ErrorCode]). *)
Inductive ErrorCode : Set :=
| ErrorNotImplemented
| ErrorNotSupported
| ErrorInternalError
| ErrorProtocolError
| ErrorSecurityError
| ErrorFormatViolation
| ErrorPropertyConstraintViolation
| ErrorOccurrenceConstraintViolation
| ErrorTypeConstraintViolation
| ErrorGenericError.

#[global] Instance ErrorCode_eq_dec : EqDecision ErrorCode.
Proof. solve_decision. Defined.

(** A non-nil value of interface type [error], by dynamic type.
    - [ValidationErrorPtr p]: a [*jsonschema.ValidationError]; [p = None]
      is the nil pointer of that type.
    - [MqttError code err]: the [*mqtt.Error] that [NewError code err]
      allocates; it unwraps to [err].
    - [wrapError msg err]: [fmt.Errorf(msg + "%w", err)], which unwraps
      to [err].
    - [fmtError msg err]: [fmt.Errorf(msg + "%v", err)], whose text ends
      in the text of [err] but which unwraps to nothing.
    - [errorString s]: [errors.New(s)], [fmt.Errorf] without an error
      operand, and every other error that has no [Unwrap] method. *)
Inductive error : Set :=
| ValidationErrorPtr (p : option string)
| MqttError (code : ErrorCode) (wrappedErr : error)
| wrapError (msg : string) (err : error)
| fmtError (msg : string) (err : error)
| errorString (s : string).

#[global] Instance error_eq_dec : EqDecision error.
Proof. solve_decision. Defined.

(** Modelled from the spec: [NewError] of package [mqtt] (its file is not
    among the sources) pairs one of the error codes of the closed set
    with the error it classifies. *)
Definition NewError (code : ErrorCode) (err : error) : error :=
  MqttError code err.

(** [errors.Unwrap]. *)
Definition Unwrap (err : error) : option error :=
  match err with
  | MqttError _ e => Some e
  | wrapError _ e => Some e
  | ValidationErrorPtr _ | fmtError _ _ | errorString _ => None
  end.

(** [errors.As(err, &target)] with [target] of type
    [*jsonschema.ValidationError]: the chain of [err] is walked until a
    value whose dynamic type is assignable to the target's type is found.
    The test is on the dynamic type only, so a nil pointer of that type
    matches. *)
Fixpoint As_ValidationError_chain (err : error) : bool :=
  match err with
  | ValidationErrorPtr _ => true
  | MqttError _ e => As_ValidationError_chain e
  | wrapError _ e => As_ValidationError_chain e
  | fmtError _ _ | errorString _ => false
  end.

(** The first argument of [errors.As] has interface type [error]:
    [errors.As] answers [false] at once only for the nil interface. *)
Definition As_ValidationError (err : option error) : bool :=
  match err with
  | None => false
  | Some e => As_ValidationError_chain e
  end.

(** [errors.As(err, &target)] with [target] of type [*mqtt.Error],
    returning the code of the first such error of the chain. This is how
    an error is classified under the OCPP error taxonomy. *)
Fixpoint As_MqttError (err : error) : option ErrorCode :=
  match err with
  | MqttError code _ => Some code
  | wrapError _ e => As_MqttError e
  | ValidationErrorPtr _ | fmtError _ _ | errorString _ => None
  end.

End goerrors.
Export goerrors.

(** ** Package [ocpp16]: the message types the two handlers use *)

Module ocpp16.

(** Modelled from the spec: the declarations of [AuthorizeJson] and
    [AuthorizeResponseJson] are not among the sources. The handler reads
    the request's [IdTag] and sets the response's [IdTagInfo.Status];
    the status is a string type of which the handler names two
    constants. Fields the handler does not set keep their zero value and
    are left out. *)
Record AuthorizeJson : Set := { IdTag : string }.

Inductive AuthorizeResponseJsonIdTagInfoStatus : Set :=
| AuthorizeResponseJsonIdTagInfoStatusAccepted
| AuthorizeResponseJsonIdTagInfoStatusInvalid
| AuthorizeResponseJsonIdTagInfoStatusOther (s : string).

Record AuthorizeResponseJsonIdTagInfo : Set := {
  Status : AuthorizeResponseJsonIdTagInfoStatus
}.

Record AuthorizeResponseJson : Set := {
  IdTagInfo : AuthorizeResponseJsonIdTagInfo
}.

(** [reservation.go] and [reservation_response.go]. *)
Record Reservation : Set := {
  ReservationId : Z;
  ConnectorId : Z;
  ExpiryDate : string;
  Reservation_IdTag : string
}.

Inductive ReservationStatus : Set :=
| ReservationStatusAccepted
| ReservationStatusFaulted
| ReservationStatusOccupied
| ReservationStatusRejected
| ReservationStatusUnavailable
| ReservationStatusOther (s : string).

Record ReservationResponse : Set := {
  ReservationResponse_Status : ReservationStatus
}.

End ocpp16.

(** ** Package [ocpp]: the [Request] and [Response] interfaces *)

Module ocpp.

(** A value of interface type [ocpp.Request]: nil, a pointer to one of
    the request types above (possibly a nil pointer), or a pointer to
    any other request type, named by [typeName]. *)
Inductive Request : Set :=
| NilRequest
| AuthorizeJsonPtr (p : option ocpp16.AuthorizeJson)
| ReservationPtr (p : option ocpp16.Reservation)
| OtherRequest (typeName : string) (fields : bytes).

(** A value of interface type [ocpp.Response], likewise. *)
Inductive Response : Set :=
| NilResponse
| AuthorizeResponseJsonPtr (p : option ocpp16.AuthorizeResponseJson)
| ReservationResponsePtr (p : option ocpp16.ReservationResponse)
| OtherResponse (typeName : string) (fields : bytes).

(** [resp == nil] on the interface value. *)
Definition Response_is_nil (resp : Response) : bool :=
  match resp with
  | NilResponse => true
  | _ => false
  end.

(** The dynamic type of the value is [*ocpp16.Reservation]; the pointer
    may be nil. *)
Definition is_ReservationPtr (request : Request) : bool :=
  match request with
  | ReservationPtr _ => true
  | _ => false
  end.

(** The dynamic type of the value is [*ocpp16.ReservationResponse]. *)
Definition is_ReservationResponsePtr (response : Response) : bool :=
  match response with
  | ReservationResponsePtr _ => true
  | _ => false
  end.

End ocpp.
Export ocpp.

(** ** Package [mqtt]: the envelope *)

Module message.

(** Modelled from the spec: the declaration of [Message] is not among
    the sources. The envelope's [MessageType] is one of Call, CallResult
    and CallError; the Go type is an integer type, so a value that is
    none of the three constants can reach the router as well. *)
Inductive MessageType : Set :=
| MessageTypeCall
| MessageTypeCallResult
| MessageTypeCallError
| MessageTypeOther (n : Z).

(** Modelled from the spec: the fields of the envelope. [State] is the
    opaque blob the originator of a call stored with it. *)
Record Message : Set := {
  Type_ : MessageType;
  Action : string;
  MessageId : string;
  RequestPayload : bytes;
  ResponsePayload : bytes;
  State : bytes
}.

End message.
Export message.

(** ** Effects: the emitter trace, the log and the handlers' world *)

Module effects.

(** An operand of a log call. *)
Inductive LogArg : Set :=
| ArgString (s : string)
| ArgError (e : error)
| ArgRequest (r : Request)
| ArgResponse (r : Response).

(** A line of the process log: [log.Printf format args...] or
    [slog.Info msg attrs...]. *)
Inductive LogEntry : Set :=
| Printf (format : string) (args : list LogArg)
| SlogInfo (msg : string) (attrs : list (string * LogArg)).

(** What a run can change: the calls [emitter.Emit] received, oldest
    first, the log, and the world behind the handlers' interfaces (token
    and transaction stores, services, call makers). *)
Record St (World : Type) : Type := {
  emitted : list (string * Message);
  logged : list LogEntry;
  world : World
}.
Arguments emitted {World} _.
Arguments logged {World} _.
Arguments world {World} _.

(** A Go call either returns or panics. *)
Inductive outcome (A : Type) : Type :=
| Returns (a : A)
| Panics (reason : string).
Arguments Returns {A} a.
Arguments Panics {A} reason.

Definition M (World : Type) (A : Type) : Type :=
  St World -> outcome A * St World.

#[global] Instance M_ret {World} : MRet (M World) :=
  fun A a s => (Returns a, s).

#[global] Instance M_bind {World} : MBind (M World) :=
  fun A B k m s =>
    match m s with
    | (Returns a, s') => k a s'
    | (Panics reason, s') => (Panics reason, s')
    end.

Definition panic {World A} (reason : string) : M World A :=
  fun s => (Panics reason, s).

(** Appends a line to the log. *)
Definition log {World} (l : LogEntry) : M World unit :=
  fun s => (Returns tt,
            {| emitted := emitted s; logged := logged s ++ [l]; world := world s |}).

(** [mqtt.Emitter]: the value an [Emit] call returns is the emitter's
    own; the call itself is recorded on the trace. The context argument,
    which only carries cancellation, is not modelled. *)
Definition Emitter : Set := string -> Message -> option error.

Definition Emit {World} (emitter : Emitter) (chargeStationId : string)
    (msg : Message) : M World (option error) :=
  fun s => (Returns (emitter chargeStationId msg),
            {| emitted := emitted s ++ [(chargeStationId, msg)];
               logged := logged s; world := world s |}).

End effects.
Export effects.

(** ** Package [handlers]: routes and handler interfaces *)

Module handlers.

(** [handlers.CallHandler]: [HandleCall(ctx, chargeStationId, request)]
    returns a response and an error. *)
Definition CallHandler (World : Type) : Type :=
  string -> Request -> M World (Response * option error).

(** [handlers.CallResultHandler]:
    [HandleCallResult(ctx, chargeStationId, request, response, state)]. *)
Definition CallResultHandler (World : Type) : Type :=
  string -> Request -> Response -> bytes -> M World (option error).

(** [handlers.CallRoute]. [NewRequest] is the value the factory
    returns on each call. *)
Record CallRoute (World : Type) : Type := {
  NewRequest : Request;
  RequestSchema : string;
  ResponseSchema : string;
  Handler : CallHandler World
}.
Arguments NewRequest {World} _.
Arguments RequestSchema {World} _.
Arguments ResponseSchema {World} _.
Arguments Handler {World} _.

(** [handlers.CallResultRoute]. *)
Record CallResultRoute (World : Type) : Type := {
  ResultNewRequest : Request;
  ResultNewResponse : Response;
  ResultRequestSchema : string;
  ResultResponseSchema : string;
  ResultHandler : CallResultHandler World
}.
Arguments ResultNewRequest {World} _.
Arguments ResultNewResponse {World} _.
Arguments ResultRequestSchema {World} _.
Arguments ResultResponseSchema {World} _.
Arguments ResultHandler {World} _.

End handlers.
Export handlers.

(** ** Package [handlers/ocpp16]: the two handlers *)

Module handlers16.

(** [services.TokenStore], as far as the handler uses it:
    [FindToken(tokenType, id)] returns a token pointer and an error. The
    declaration of [Token] is not among the sources; the handler only
    tests the pointer against nil, so the token type is a parameter. *)
Record TokenStore (World Token : Type) : Type := {
  FindToken : string -> string -> M World (option Token * option error)
}.
Arguments FindToken {World Token} _ _ _.

Section Handlers.
Context {World Token : Type}.

Record AuthorizeHandler : Type := {
  AuthorizeHandler_TokenStore : TokenStore World Token
}.

(** [AuthorizeHandler.HandleCall]. The type assertion to a pointer to
    [types.AuthorizeJson] panics on any other dynamic type and on the nil
    interface; reading [req.IdTag] panics on a nil pointer. *)
Definition AuthorizeHandler_HandleCall (a : AuthorizeHandler)
    (chargeStationId : string) (request : Request)
    : M World (Response * option error) :=
  match request with
  | AuthorizeJsonPtr (Some req) =>
      log (Printf "Charge station %s authorize token %s"
             [ArgString chargeStationId; ArgString (ocpp16.IdTag req)]);;
      let status := ocpp16.AuthorizeResponseJsonIdTagInfoStatusInvalid in
      '(tok, err) ← FindToken (AuthorizeHandler_TokenStore a) "ISO14443" (ocpp16.IdTag req);
      match err with
      | Some err => mret (NilResponse, Some err)
      | None =>
          let status :=
            match tok with
            | Some _ => ocpp16.AuthorizeResponseJsonIdTagInfoStatusAccepted
            | None => status
            end in
          mret (AuthorizeResponseJsonPtr
                  (Some {| ocpp16.IdTagInfo := {| ocpp16.Status := status |} |}),
                None)
      end
  | AuthorizeJsonPtr None => panic "invalid memory address or nil pointer dereference"
  | _ => panic "interface conversion: ocpp.Request is not *ocpp16.AuthorizeJson"
  end.

(** [ReservationResultHandler.HandleCallResult]: two type assertions,
    one structured log line, and a nil error. Neither pointer is
    dereferenced, so nil pointers of the asserted types pass. *)
Definition ReservationResultHandler_HandleCallResult
    (chargeStationId : string) (request : Request) (response : Response)
    (state : bytes) : M World (option error) :=
  match request with
  | ReservationPtr req =>
      match response with
      | ReservationResponsePtr resp =>
          log (SlogInfo "Handling Result for reservation: "
                 [("request", ArgRequest (ReservationPtr req));
                  ("response", ArgResponse (ReservationResponsePtr resp))]);;
          mret None
      | _ => panic "interface conversion: ocpp.Response is not *ocpp16.ReservationResponse"
      end
  | _ => panic "interface conversion: ocpp.Request is not *ocpp16.Reservation"
  end.

End Handlers.
End handlers16.

(** ** Package [mqtt]: the router *)

Module mqtt.

Record Router (World : Type) : Type := {
  CallRoutes : gmap string (CallRoute World);
  CallResultRoutes : gmap string (CallResultRoute World)
}.
Arguments CallRoutes {World} _.
Arguments CallResultRoutes {World} _.

(** A value or the error of a call that failed. *)
Inductive result (A : Type) : Type :=
| Ok (a : A)
| Err (err : error).
Arguments Ok {A} a.
Arguments Err {A} err.

(** What the router calls outside its own file: [schemas.Validate]
    (payload, schema file system, schema name), and [json.Unmarshal] and
    [json.Marshal] of the standard library. [json.Unmarshal(data, &v)]
    fills the value the factory made; the model returns the filled
    value. *)
Record Codec (FS : Type) : Type := {
  Validate : bytes -> FS -> string -> option error;
  UnmarshalRequest : bytes -> Request -> result Request;
  UnmarshalResponse : bytes -> Response -> result Response;
  Marshal : Response -> result bytes
}.
Arguments Validate {FS} _ _ _ _.
Arguments UnmarshalRequest {FS} _ _ _.
Arguments UnmarshalResponse {FS} _ _ _.
Arguments Marshal {FS} _ _.

Section Route.
Context {World FS : Type} (lib : Codec FS).

(** The envelope [Route] emits for a handled call. The fields the
    composite literal does not name keep their zero value. *)
Definition callResult (message : Message) (responseJson : bytes) : Message :=
  {| Type_ := MessageTypeCallResult;
     Action := Action message;
     MessageId := MessageId message;
     RequestPayload := [];
     ResponsePayload := responseJson;
     State := [] |}.

(** The remapping both branches apply to a validator error:
    [var validationErr *jsonschema.ValidationError] is nil, and it is this
    variable, not [err], that is handed to [errors.As]. *)
Definition remapValidationError (err : error) : error :=
  let validationErr : option string := None in
  if As_ValidationError (Some (ValidationErrorPtr validationErr))
  then NewError ErrorFormatViolation err
  else err.

(** [Router.Route]. The context argument is passed on untouched and is
    not modelled. *)
Definition Route (r : Router World) (chargeStationId : string)
    (message : Message) (emitter : Emitter) (schemaFS : FS)
    : M World (option error) :=
  match Type_ message with
  | MessageTypeCall =>
      match CallRoutes r !! Action message with
      | None =>
          mret (Some (wrapError "routing request: "
                        (NewError ErrorNotImplemented
                           (errorString (Action message ++ " not implemented")))))
      | Some route =>
          match Validate lib (RequestPayload message) schemaFS (RequestSchema route) with
          | Some err =>
              let err := remapValidationError err in
              mret (Some (wrapError ("validating " ++ Action message ++ " request: ") err))
          | None =>
              let req := NewRequest route in
              match UnmarshalRequest lib (RequestPayload message) req with
              | Err err =>
                  mret (Some (wrapError
                                ("unmarshalling " ++ Action message ++ " request payload: ") err))
              | Ok req =>
                  '(resp, err) ← Handler route chargeStationId req;
                  match err with
                  | Some err => mret (Some err)
                  | None =>
                      if Response_is_nil resp
                      then mret (Some (errorString
                                         ("no response or error for " ++ Action message)))
                      else
                        match Marshal lib resp with
                        | Err err =>
                            mret (Some (wrapError
                                          ("marshalling " ++ Action message ++ " call response: ")
                                          err))
                        | Ok responseJson =>
                            match Validate lib responseJson schemaFS (ResponseSchema route) with
                            | Some err =>
                                let mqttErr := NewError ErrorPropertyConstraintViolation err in
                                log (Printf "warning: response to %s is not valid: %v"
                                       [ArgString (Action message); ArgError mqttErr])
                            | None => mret tt
                            end;;
                            let out := callResult message responseJson in
                            err ← Emit emitter chargeStationId out;
                            match err with
                            | Some err => mret (Some (wrapError "sending call response: " err))
                            | None => mret None
                            end
                        end
                  end
              end
          end
      end
  | MessageTypeCallResult =>
      match CallResultRoutes r !! Action message with
      | None =>
          mret (Some (wrapError "routing request: "
                        (NewError ErrorNotImplemented
                           (errorString (Action message ++ " result not implemented")))))
      | Some route =>
          match Validate lib (RequestPayload message) schemaFS (ResultRequestSchema route) with
          | Some err =>
              mret (Some (wrapError ("validating " ++ Action message ++ " request: ") err))
          | None =>
              match Validate lib (ResponsePayload message) schemaFS (ResultResponseSchema route) with
              | Some err =>
                  let err := remapValidationError err in
                  mret (Some (wrapError ("validating " ++ Action message ++ " response: ") err))
              | None =>
                  let req := ResultNewRequest route in
                  match UnmarshalRequest lib (RequestPayload message) req with
                  | Err err =>
                      mret (Some (wrapError
                                    ("unmarshalling " ++ Action message ++ " request payload: ")
                                    err))
                  | Ok req =>
                      let resp := ResultNewResponse route in
                      match UnmarshalResponse lib (ResponsePayload message) resp with
                      | Err err =>
                          mret (Some (fmtError
                                        ("unmarshalling " ++ Action message ++ " response payload: ")
                                        err))
                      | Ok resp =>
                          err ← ResultHandler route chargeStationId req resp (State message);
                          match err with
                          | Some err => mret (Some err)
                          | None => mret None
                          end
                      end
                  end
              end
          end
      end
  | MessageTypeCallError =>
      mret (Some (errorString "we shouldn't get here at the moment"))
  | MessageTypeOther _ => mret None
  end.

End Route.

(** What [Route] returns after [emitter.Emit] returned [sent]. *)
Definition sendingResult (sent : option error) : option error :=
  match sent with
  | Some err => Some (wrapError "sending call response: " err)
  | None => None
  end.

(** The warning [Route] logs when the response payload fails validation
    with [v]; nothing is logged when validation succeeds. *)
Definition responseWarning (action : string) (v : option error) : list LogEntry :=
  match v with
  | Some err =>
      [Printf "warning: response to %s is not valid: %v"
         [ArgString action; ArgError (NewError ErrorPropertyConstraintViolation err)]]
  | None => []
  end.

End mqtt.

(** ** A small deployment, used to run the model on concrete envelopes *)

Module demo.
Import mqtt handlers16.

(** [{"name":value}] and ["s"] as JSON bytes. *)
Definition jsonField (name : string) (value : bytes) : bytes :=
  ([x7b; x22] ++ String.list_byte_of_string name ++ [x22; x3a] ++ value ++ [x7d])%list.

Definition jsonString (s : string) : bytes :=
  ([x22] ++ String.list_byte_of_string s ++ [x22])%list.

Definition jsonNull : bytes := String.list_byte_of_string "null".

Fixpoint stripPrefix (p l : bytes) : option bytes :=
  match p, l with
  | [], _ => Some l
  | a :: p', b :: l' => if Byte.eqb a b then stripPrefix p' l' else None
  | _ :: _, [] => None
  end.

Definition stripSuffix (p l : bytes) : option bytes :=
  reverse <$> stripPrefix (reverse p) (reverse l).

(** A schema file system: schema name to the one property the schema
    requires. *)
Definition schemaFiles : Type := gmap string string.

(** A validator in the shape of [schemas.Validate]: a schema that cannot
    be opened is an I/O error, a payload that is not an object with the
    required property is a validation error. *)
Definition validate (payload : bytes) (fs : schemaFiles) (schema : string)
    : option error :=
  match fs !! schema with
  | None => Some (errorString ("open " ++ schema ++ ": file does not exist"))
  | Some property =>
      match stripPrefix ([x7b; x22] ++ String.list_byte_of_string property ++ [x22; x3a])%list payload with
      | Some _ => None
      | None => Some (ValidationErrorPtr (Some ("missing properties: " ++ property)))
      end
  end.

(** Decoding into an [AuthorizeJson] reads the [idTag] string; other
    request types here have no fields to fill. *)
Definition unmarshalRequest (payload : bytes) (req : Request) : result Request :=
  match req with
  | AuthorizeJsonPtr _ =>
      match stripPrefix ([x7b; x22] ++ String.list_byte_of_string "idTag" ++ [x22; x3a; x22])%list payload with
      | Some rest =>
          match stripSuffix [x22; x7d] rest with
          | Some tag =>
              Ok (AuthorizeJsonPtr (Some {| ocpp16.IdTag := String.string_of_list_byte tag |}))
          | None => Err (errorString "unexpected end of JSON input")
          end
      | None => Err (errorString "json: cannot unmarshal into Go value of type ocpp16.AuthorizeJson")
      end
  | _ => Ok req
  end.

Definition unmarshalResponse (payload : bytes) (resp : Response) : result Response :=
  Ok resp.

Definition statusText (st : ocpp16.AuthorizeResponseJsonIdTagInfoStatus) : string :=
  match st with
  | ocpp16.AuthorizeResponseJsonIdTagInfoStatusAccepted => "Accepted"
  | ocpp16.AuthorizeResponseJsonIdTagInfoStatusInvalid => "Invalid"
  | ocpp16.AuthorizeResponseJsonIdTagInfoStatusOther s => s
  end.

(** [json.Marshal]: a nil pointer marshals to [null]. *)
Definition marshal (resp : Response) : result bytes :=
  match resp with
  | AuthorizeResponseJsonPtr (Some r) =>
      Ok (jsonField "idTagInfo"
            (jsonField "status"
               (jsonString (statusText (ocpp16.Status (ocpp16.IdTagInfo r))))))
  | AuthorizeResponseJsonPtr None | ReservationResponsePtr None | NilResponse =>
      Ok jsonNull
  | ReservationResponsePtr (Some _) => Ok (jsonField "status" (jsonString "Accepted"))
  | OtherResponse _ fields => Ok fields
  end.

Definition codec : Codec schemaFiles :=
  {| Validate := validate;
     UnmarshalRequest := unmarshalRequest;
     UnmarshalResponse := unmarshalResponse;
     Marshal := marshal |}.

Definition schemas : schemaFiles :=
  {[ "ocpp16/Authorize.json" := "idTag";
     "ocpp16/AuthorizeResponse.json" := "idTagInfo";
     "ocpp16/ReserveNow.json" := "reservationId";
     "ocpp16/ReserveNowResponse.json" := "status" ]}.

(** The world of the in-memory token store: the tokens, by type and id. *)
Definition tokens : Type := list (string * string).

Definition memoryTokenStore : TokenStore tokens string :=
  {| FindToken := fun tokenType id s =>
       (Returns (if decide ((tokenType, id) ∈ world s) then Some id else None, None), s) |}.

Definition brokenTokenStore : TokenStore tokens string :=
  {| FindToken := fun _ _ s =>
       (Returns (None, Some (errorString "token store unavailable")), s) |}.

(** The [Authorize] entry of [NewV16Router], two call routes whose
    handlers misbehave, and a result route for the reservation handler. *)
Definition authorizeRoute (tokenStore : TokenStore tokens string) : CallRoute tokens :=
  {| NewRequest := AuthorizeJsonPtr (Some {| ocpp16.IdTag := EmptyString |});
     RequestSchema := "ocpp16/Authorize.json";
     ResponseSchema := "ocpp16/AuthorizeResponse.json";
     Handler := AuthorizeHandler_HandleCall {| AuthorizeHandler_TokenStore := tokenStore |} |}.

Definition silentRoute : CallRoute tokens :=
  {| NewRequest := AuthorizeJsonPtr (Some {| ocpp16.IdTag := EmptyString |});
     RequestSchema := "ocpp16/Authorize.json";
     ResponseSchema := "ocpp16/AuthorizeResponse.json";
     Handler := fun _ _ => mret (NilResponse, None) |}.

Definition nilPointerRoute : CallRoute tokens :=
  {| NewRequest := AuthorizeJsonPtr (Some {| ocpp16.IdTag := EmptyString |});
     RequestSchema := "ocpp16/Authorize.json";
     ResponseSchema := "ocpp16/AuthorizeResponse.json";
     Handler := fun _ _ => mret (AuthorizeResponseJsonPtr None, None) |}.

Definition reservationRoute : CallResultRoute tokens :=
  {| ResultNewRequest := ReservationPtr (Some {| ocpp16.ReservationId := 0; ocpp16.ConnectorId := 0;
                                                  ocpp16.ExpiryDate := EmptyString;
                                                  ocpp16.Reservation_IdTag := EmptyString |});
     ResultNewResponse :=
       ReservationResponsePtr
         (Some {| ocpp16.ReservationResponse_Status := ocpp16.ReservationStatusOther EmptyString |});
     ResultRequestSchema := "ocpp16/ReserveNow.json";
     ResultResponseSchema := "ocpp16/ReserveNowResponse.json";
     ResultHandler := ReservationResultHandler_HandleCallResult |}.

Definition router (tokenStore : TokenStore tokens string) : Router tokens :=
  {| CallRoutes := {[ "Authorize" := authorizeRoute tokenStore;
                      "Silent" := silentRoute;
                      "NilPointer" := nilPointerRoute ]};
     CallResultRoutes := {[ "ReserveNow" := reservationRoute ]} |}.

(** A handler that stores the state blob it is given in its world. *)
Definition recordingRoute : CallResultRoute (list bytes) :=
  {| ResultNewRequest := OtherRequest "CertificateSignedRequestJson" [];
     ResultNewResponse := OtherResponse "CertificateSignedResponseJson" [];
     ResultRequestSchema := "ocpp16/ReserveNow.json";
     ResultResponseSchema := "ocpp16/ReserveNowResponse.json";
     ResultHandler := fun _ _ _ state s =>
       (Returns None,
        {| emitted := emitted s; logged := logged s; world := (world s ++ [state])%list |}) |}.

Definition recordingRouter : Router (list bytes) :=
  {| CallRoutes := ∅;
     CallResultRoutes := {[ "CertificateSigned" := recordingRoute ]} |}.

(** An emitter whose transport accepts every envelope. *)
Definition okEmitter : Emitter := fun _ _ => None.

Definition start {World} (w : World) : St World :=
  {| emitted := []; logged := []; world := w |}.

Definition call (action id : string) (payload : bytes) : Message :=
  {| Type_ := MessageTypeCall; Action := action; MessageId := id;
     RequestPayload := payload; ResponsePayload := []; State := [] |}.

Definition resultOf (action id : string) (request response state : bytes) : Message :=
  {| Type_ := MessageTypeCallResult; Action := action; MessageId := id;
     RequestPayload := request; ResponsePayload := response; State := state |}.

Definition authorizeABC123 : bytes := jsonField "idTag" (jsonString "ABC123").

(** [{"idTag":42}]: the property is there, which is all [validate] asks
    for, but it is not a string. *)
Definition authorize42 : bytes := jsonField "idTag" (String.list_byte_of_string "42").

Definition noSchemas : schemaFiles := ∅.

Definition scheduled : bytes := jsonField "reservationId" (String.list_byte_of_string "7").

Definition accepted : bytes := jsonField "status" (jsonString "Accepted").

Definition pendingCsr : bytes := String.list_byte_of_string "csr-0001".

Definition store : tokens := [("ISO14443", "ABC123")].

(** What [validate] and [unmarshalRequest] answer on [noSchemas] and on
    [authorize42]. *)
Definition missing : error :=
  errorString "open ocpp16/Authorize.json: file does not exist".

Definition notString : error :=
  errorString "json: cannot unmarshal into Go value of type ocpp16.AuthorizeJson".

Definition reservation7 : Request :=
  ReservationPtr (Some {| ocpp16.ReservationId := 7; ocpp16.ConnectorId := 1;
                          ocpp16.ExpiryDate := "2023-06-15T15:05:00+01:00";
                          ocpp16.Reservation_IdTag := "ABC123" |}).

Definition reservationAccepted : Response :=
  ReservationResponsePtr
    (Some {| ocpp16.ReservationResponse_Status := ocpp16.ReservationStatusAccepted |}).

End demo.


(** ** Handlers that leave the emitter trace alone *)

Module frames.

(** A call handler that never calls the router's emitter: its runs keep
    the trace as it was. *)
Definition callKeepsTrace {World} (h : CallHandler World) : Prop :=
  forall chargeStationId request s,
    emitted (h chargeStationId request s).2 = emitted s.

Definition resultKeepsTrace {World} (h : CallResultHandler World) : Prop :=
  forall chargeStationId request response state s,
    emitted (h chargeStationId request response state s).2 = emitted s.

(** Every handler of the router keeps the trace. *)
Definition routerKeepsTrace {World} (r : mqtt.Router World) : Prop :=
  (forall action route,
     mqtt.CallRoutes r !! action = Some route -> callKeepsTrace (Handler route))
  /\ (forall action route,
        mqtt.CallResultRoutes r !! action = Some route ->
        resultKeepsTrace (ResultHandler route)).

(** A token store that only reads: a lookup returns and keeps the state. *)
Definition readOnly {World Token} (store : handlers16.TokenStore World Token) : Prop :=
  forall tokenType id s, exists found,
    handlers16.FindToken store tokenType id s = (Returns found, s).

(** The state after the log line of the Authorize handler. *)
Definition authorizeLogged {World} (chargeStationId : string)
    (req : ocpp16.AuthorizeJson) (s : St World) : St World :=
  {| emitted := emitted s;
     logged := logged s ++
               [Printf "Charge station %s authorize token %s"
                  [ArgString chargeStationId; ArgString (ocpp16.IdTag req)]];
     world := world s |}.

End frames.
Export frames.

(** ** Package [mqtt]: the two route tables *)

Module routers.
Import mqtt handlers16.

(** [new(T)] behind the [ocpp.Request] or [ocpp.Response] interface, for
    a message type [T] whose declaration is not among the sources: a
    pointer to the zero value, named by its type. *)
Definition newRequest (typeName : string) : Request := OtherRequest typeName [].

Definition newResponse (typeName : string) : Response := OtherResponse typeName [].

Section Routers.
Context {World Token FS : Type}.
Context {Clock TransactionStore TariffService CertificateValidationService : Type}.
Context {CertificateSignerService EvCertificateProvider CallMaker : Type}.

(** What the constructors use and the sources do not hold: the handler
    types of packages [handlers/ocpp16] and [handlers/ocpp201] other than
    the v1.6 [AuthorizeHandler], by the fields their composite literals
    set; the two call makers, whose [Actions] map is keyed by the name of
    the reflected type; and [int(d.Seconds())] on a [time.Duration],
    which goes through floating point. *)
Record Absent : Type := {
  BootNotificationHandler16 : Clock -> Z -> CallHandler World;
  HeartbeatHandler16 : Clock -> CallHandler World;
  StatusNotificationHandler16 : CallHandler World;
  StartTransactionHandler16 :
    Clock -> TokenStore World Token -> TransactionStore -> CallHandler World;
  StopTransactionHandler16 : Clock -> TransactionStore -> CallHandler World;
  MeterValuesHandler16 : TransactionStore -> CallHandler World;
  DataTransferHandler16 :
    FS -> gmap string (gmap string (CallRoute World)) -> CallHandler World;
  DataTransferResultHandler16 :
    FS -> gmap string (gmap string (CallResultRoute World)) -> CallResultHandler World;
  BootNotificationHandler201 : Clock -> Z -> CallHandler World;
  HeartbeatHandler201 : Clock -> CallHandler World;
  StatusNotificationHandler201 : CallHandler World;
  AuthorizeHandler201 :
    TokenStore World Token -> CertificateValidationService -> CallHandler World;
  TransactionEventHandler201 : TransactionStore -> TariffService -> CallHandler World;
  GetCertificateStatusHandler201 : CertificateValidationService -> CallHandler World;
  SignCertificateHandler201 : CertificateSignerService -> CallMaker -> CallHandler World;
  Get15118EvCertificateHandler201 : EvCertificateProvider -> CallHandler World;
  CertificateSignedResultHandler201 : CallResultHandler World;
  DataTransferCallMaker : Emitter -> gmap string (string * string) -> CallMaker;
  BasicCallMaker : Emitter -> gmap string string -> CallMaker;
  SecondsInt : Z -> Z
}.

Context (pkg : Absent).

(** The call maker [NewV16Router] builds first. *)
Definition dataTransferCallMaker (emitter : Emitter) : CallMaker :=
  DataTransferCallMaker pkg emitter
    {[ "*ocpp201.CertificateSignedRequestJson" :=
         ("org.openchargealliance.iso15118pnc", "CertificateSigned") ]}.

(** The routes [NewV16Router] nests in its [DataTransfer] handler, under
    the vendor id [org.openchargealliance.iso15118pnc]. *)
Definition pncCallRoutes (tokenStore : TokenStore World Token)
    (certValidationService : CertificateValidationService)
    (certSignerService : CertificateSignerService)
    (certProviderService : EvCertificateProvider)
    (callMaker : CallMaker) : gmap string (CallRoute World) :=
  {[ "Authorize" :=
       {| NewRequest := newRequest "ocpp201.AuthorizeRequestJson";
          RequestSchema := "ocpp201/AuthorizeRequest.json";
          ResponseSchema := "ocpp201/AuthorizeResponse.json";
          Handler := AuthorizeHandler201 pkg tokenStore certValidationService |};
     "GetCertificateStatus" :=
       {| NewRequest := newRequest "ocpp201.GetCertificateStatusRequestJson";
          RequestSchema := "ocpp201/GetCertificateStatusRequest.json";
          ResponseSchema := "ocpp201/GetCertificateStatusResponse.json";
          Handler := GetCertificateStatusHandler201 pkg certValidationService |};
     "SignCertificate" :=
       {| NewRequest := newRequest "ocpp201.SignCertificateRequestJson";
          RequestSchema := "ocpp201/SignCertificateRequest.json";
          ResponseSchema := "ocpp201/SignCertificateResponse.json";
          Handler := SignCertificateHandler201 pkg certSignerService callMaker |};
     "Get15118EVCertificate" :=
       {| NewRequest := newRequest "ocpp201.Get15118EVCertificateRequestJson";
          RequestSchema := "ocpp201/Get15118EVCertificateRequest.json";
          ResponseSchema := "ocpp201/Get15118EVCertificateResponse.json";
          Handler := Get15118EvCertificateHandler201 pkg certProviderService |} ]}.

(** The result routes nested in the [DataTransfer] result handler. *)
Definition pncCallResultRoutes : gmap string (CallResultRoute World) :=
  {[ "CertificateSigned" :=
       {| ResultNewRequest := newRequest "ocpp201.CertificateSignedRequestJson";
          ResultNewResponse := newResponse "ocpp201.CertificateSignedResponseJson";
          ResultRequestSchema := "ocpp201/CertificateSignedRequest.json";
          ResultResponseSchema := "ocpp201/CertificateSignedResponse.json";
          ResultHandler := CertificateSignedResultHandler201 pkg |} ]}.

(** [NewV16Router]. The result route of [DataTransfer] sets neither
    schema field, so both are the empty string. *)
Definition NewV16Router (emitter : Emitter) (clk : Clock)
    (tokenStore : TokenStore World Token) (transactionStore : TransactionStore)
    (certValidationService : CertificateValidationService)
    (certSignerService : CertificateSignerService)
    (certProviderService : EvCertificateProvider)
    (heartbeatInterval : Z) (schemaFS : FS) : Router World :=
  let dataTransferCallMaker := dataTransferCallMaker emitter in
  {| CallRoutes :=
       {[ "BootNotification" :=
            {| NewRequest := newRequest "ocpp16.BootNotificationJson";
               RequestSchema := "ocpp16/BootNotification.json";
               ResponseSchema := "ocpp16/BootNotificationResponse.json";
               Handler := BootNotificationHandler16 pkg clk
                            (SecondsInt pkg heartbeatInterval) |};
          "Heartbeat" :=
            {| NewRequest := newRequest "ocpp16.HeartbeatJson";
               RequestSchema := "ocpp16/Heartbeat.json";
               ResponseSchema := "ocpp16/HeartbeatResponse.json";
               Handler := HeartbeatHandler16 pkg clk |};
          "StatusNotification" :=
            {| NewRequest := newRequest "ocpp16.StatusNotificationJson";
               RequestSchema := "ocpp16/StatusNotification.json";
               ResponseSchema := "ocpp16/StatusNotificationResponse.json";
               Handler := StatusNotificationHandler16 pkg |};
          "Authorize" :=
            {| NewRequest := AuthorizeJsonPtr (Some {| ocpp16.IdTag := EmptyString |});
               RequestSchema := "ocpp16/Authorize.json";
               ResponseSchema := "ocpp16/AuthorizeResponse.json";
               Handler :=
                 AuthorizeHandler_HandleCall {| AuthorizeHandler_TokenStore := tokenStore |} |};
          "StartTransaction" :=
            {| NewRequest := newRequest "ocpp16.StartTransactionJson";
               RequestSchema := "ocpp16/StartTransaction.json";
               ResponseSchema := "ocpp16/StartTransactionResponse.json";
               Handler := StartTransactionHandler16 pkg clk tokenStore transactionStore |};
          "StopTransaction" :=
            {| NewRequest := newRequest "ocpp16.StopTransactionJson";
               RequestSchema := "ocpp16/StopTransaction.json";
               ResponseSchema := "ocpp16/StopTransactionResponse.json";
               Handler := StopTransactionHandler16 pkg clk transactionStore |};
          "MeterValues" :=
            {| NewRequest := newRequest "ocpp16.MeterValuesJson";
               RequestSchema := "ocpp16/MeterValues.json";
               ResponseSchema := "ocpp16/MeterValuesResponse.json";
               Handler := MeterValuesHandler16 pkg transactionStore |};
          "DataTransfer" :=
            {| NewRequest := newRequest "ocpp16.DataTransferJson";
               RequestSchema := "ocpp16/DataTransfer.json";
               ResponseSchema := "ocpp16/DataTransferResponse.json";
               Handler :=
                 DataTransferHandler16 pkg schemaFS
                   {[ "org.openchargealliance.iso15118pnc" :=
                        pncCallRoutes tokenStore certValidationService certSignerService
                          certProviderService dataTransferCallMaker ]} |} ]};
     CallResultRoutes :=
       {[ "DataTransfer" :=
            {| ResultNewRequest := newRequest "ocpp16.DataTransferJson";
               ResultNewResponse := newResponse "ocpp16.DataTransferResponseJson";
               ResultRequestSchema := EmptyString;
               ResultResponseSchema := EmptyString;
               ResultHandler :=
                 DataTransferResultHandler16 pkg schemaFS
                   {[ "org.openchargealliance.iso15118pnc" := pncCallResultRoutes ]} |} ]} |}.

(** The call maker [NewV201Router] builds first. *)
Definition basicCallMaker (emitter : Emitter) : CallMaker :=
  BasicCallMaker pkg emitter
    {[ "*ocpp201.CertificateSignedRequestJson" := "CertificateSigned" ]}.

(** [NewV201Router]. *)
Definition NewV201Router (emitter : Emitter) (clk : Clock)
    (tokenStore : TokenStore World Token) (transactionStore : TransactionStore)
    (tariffService : TariffService)
    (certValidationService : CertificateValidationService)
    (certSignerService : CertificateSignerService)
    (certProviderService : EvCertificateProvider)
    (heartbeatInterval : Z) : Router World :=
  let callMaker := basicCallMaker emitter in
  {| CallRoutes :=
       {[ "BootNotification" :=
            {| NewRequest := newRequest "ocpp201.BootNotificationRequestJson";
               RequestSchema := "ocpp201/BootNotificationRequest.json";
               ResponseSchema := "ocpp201/BootNotificationResponse.json";
               Handler := BootNotificationHandler201 pkg clk
                            (SecondsInt pkg heartbeatInterval) |};
          "Heartbeat" :=
            {| NewRequest := newRequest "ocpp201.HeartbeatRequestJson";
               RequestSchema := "ocpp201/HeartbeatRequest.json";
               ResponseSchema := "ocpp201/HeartbeatResponse.json";
               Handler := HeartbeatHandler201 pkg clk |};
          "StatusNotification" :=
            {| NewRequest := newRequest "ocpp201.StatusNotificationRequestJson";
               RequestSchema := "ocpp201/StatusNotificationRequest.json";
               ResponseSchema := "ocpp201/StatusNotificationResponse.json";
               Handler := StatusNotificationHandler201 pkg |};
          "Authorize" :=
            {| NewRequest := newRequest "ocpp201.AuthorizeRequestJson";
               RequestSchema := "ocpp201/AuthorizeRequest.json";
               ResponseSchema := "ocpp201/AuthorizeResponse.json";
               Handler := AuthorizeHandler201 pkg tokenStore certValidationService |};
          "TransactionEvent" :=
            {| NewRequest := newRequest "ocpp201.TransactionEventRequestJson";
               RequestSchema := "ocpp201/TransactionEventRequest.json";
               ResponseSchema := "ocpp201/TransactionEventResponse.json";
               Handler := TransactionEventHandler201 pkg transactionStore tariffService |};
          "GetCertificateStatus" :=
            {| NewRequest := newRequest "ocpp201.GetCertificateStatusRequestJson";
               RequestSchema := "ocpp201/GetCertificateStatusRequest.json";
               ResponseSchema := "ocpp201/GetCertificateStatusResponse.json";
               Handler := GetCertificateStatusHandler201 pkg certValidationService |};
          "SignCertificate" :=
            {| NewRequest := newRequest "ocpp201.SignCertificateRequestJson";
               RequestSchema := "ocpp201/SignCertificateRequest.json";
               ResponseSchema := "ocpp201/SignCertificateResponse.json";
               Handler := SignCertificateHandler201 pkg certSignerService callMaker |};
          "Get15118EVCertificate" :=
            {| NewRequest := newRequest "ocpp201.Get15118EVCertificateRequestJson";
               RequestSchema := "ocpp201/Get15118EVCertificateRequest.json";
               ResponseSchema := "ocpp201/Get15118EVCertificateResponse.json";
               Handler := Get15118EvCertificateHandler201 pkg certProviderService |} ]};
     CallResultRoutes :=
       {[ "CertificateSigned" :=
            {| ResultNewRequest := newRequest "ocpp201.CertificateSignedRequestJson";
               ResultNewResponse := newResponse "ocpp201.CertificateSignedResponseJson";
               ResultRequestSchema := "ocpp201/CertificateSignedRequest.json";
               ResultResponseSchema := "ocpp201/CertificateSignedResponse.json";
               ResultHandler := CertificateSignedResultHandler201 pkg |} ]} |}.

End Routers.
End routers.

(** ** Package [cmd]: reading certificates from PEM data *)

Module cmd.
Import mqtt.

(** [pem.Block]. *)
Record Block : Type := {
  Block_Type : string;
  Block_Headers : gmap string string;
  Block_Bytes : bytes
}.

Section Certificates.
Context {Certificate : Type}.

(** [pem.Decode], which returns the next block, or nil, and the rest of
    the input, and [x509.ParseCertificate]; both are of the standard
    library. *)
Context (pem_Decode : bytes -> option Block * bytes).
Context (x509_ParseCertificate : bytes -> result Certificate).

(** [parseCertificate]. The results are named, so each bare [return]
    gives their current values: [rest] is what [pem.Decode] left, and
    [cert] stays nil when there is no block, when the block is not of
    type [CERTIFICATE], and when parsing fails. *)
Definition parseCertificate (pemData : bytes)
    : option Certificate * bytes * option error :=
  let '(block, rest) := pem_Decode pemData in
  match block with
  | None => (None, rest, None)
  | Some block =>
      if negb (String.eqb (Block_Type block) "CERTIFICATE")
      then (None, rest, None)
      else
        match x509_ParseCertificate (Block_Bytes block) with
        | Err err => (None, rest, Some err)
        | Ok cert => (Some cert, rest, None)
        end
  end.

(** The loop of [parseCertificates], with the certificates gathered so
    far. The Go loop has no bound; [fuel] bounds the number of rounds and
    [None] means it ran out. On an error the function returns a nil
    slice. *)
Fixpoint parseCertificatesFrom (fuel : nat) (pemData : bytes)
    (certs : list Certificate) : option (list Certificate * option error) :=
  match fuel with
  | O => None
  | S fuel =>
      let '(cert, rest, err) := parseCertificate pemData in
      match err with
      | Some err => Some ([], Some err)
      | None =>
          match cert with
          | None => Some (certs, None)
          | Some cert => parseCertificatesFrom fuel rest (certs ++ [cert])
          end
      end
  end.

(** [parseCertificates]. *)
Definition parseCertificates (fuel : nat) (pemData : bytes)
    : option (list Certificate * option error) :=
  parseCertificatesFrom fuel pemData [].

(** [readCertificatesFromPEMFile], over a file system given as the
    answer of [os.ReadFile]. *)
Definition readCertificatesFromPEMFile (os_ReadFile : string -> result bytes)
    (fuel : nat) (pemFile : string) : option (list Certificate * option error) :=
  match os_ReadFile pemFile with
  | Err err => Some ([], Some err)
  | Ok pemData => parseCertificates fuel pemData
  end.

(** [pem.Decode] consumes input whenever it finds a block. *)
Definition decodeConsumes : Prop :=
  forall pemData block rest,
    pem_Decode pemData = (Some block, rest) -> length rest < length pemData.

(** [pemData] starts with certificate blocks that parse to [certs], and
    [rest] is what follows them. *)
Inductive startsWith : bytes -> list Certificate -> bytes -> Prop :=
| startsWith_nil pemData : startsWith pemData [] pemData
| startsWith_cons pemData block next cert certs rest :
    pem_Decode pemData = (Some block, next) ->
    Block_Type block = "CERTIFICATE" ->
    x509_ParseCertificate (Block_Bytes block) = Ok cert ->
    startsWith next certs rest ->
    startsWith pemData (cert :: certs) rest.

(** No certificate block is next: the input holds no further block, or
    the next block is of another type. *)
Definition stopsAt (pemData : bytes) : Prop :=
  match pem_Decode pemData with
  | (None, _) => True
  | (Some block, _) => Block_Type block <> "CERTIFICATE"
  end.

End Certificates.
End cmd.

(** ** More of the small deployment *)

Module examples.
Import mqtt handlers16 routers cmd demo.

(** A decoder that reads the [status] string of a response and refuses
    anything else. *)
Definition strictUnmarshalResponse (payload : bytes) (resp : Response) : result Response :=
  match stripPrefix ([x7b; x22] ++ String.list_byte_of_string "status" ++ [x22; x3a; x22])%list
          payload with
  | Some _ => Ok resp
  | None =>
      Err (errorString "json: cannot unmarshal number into Go struct field status of type string")
  end.

Definition strictCodec : Codec schemaFiles :=
  {| Validate := validate;
     UnmarshalRequest := unmarshalRequest;
     UnmarshalResponse := strictUnmarshalResponse;
     Marshal := marshal |}.

(** [{"status":7}]. *)
Definition status7 : bytes := jsonField "status" (String.list_byte_of_string "7").

Definition idle : CallHandler tokens := fun _ _ => mret (NilResponse, None).

Definition idleResult : CallResultHandler tokens := fun _ _ _ _ => mret None.

(** Stand-ins for the handlers and call makers that are not among the
    sources: every service is the unit value and no handler does
    anything. *)
Definition absent : @Absent tokens string schemaFiles unit unit unit unit unit unit unit :=
  {| BootNotificationHandler16 := fun _ _ => idle;
     HeartbeatHandler16 := fun _ => idle;
     StatusNotificationHandler16 := idle;
     StartTransactionHandler16 := fun _ _ _ => idle;
     StopTransactionHandler16 := fun _ _ => idle;
     MeterValuesHandler16 := fun _ => idle;
     DataTransferHandler16 := fun _ _ => idle;
     DataTransferResultHandler16 := fun _ _ => idleResult;
     BootNotificationHandler201 := fun _ _ => idle;
     HeartbeatHandler201 := fun _ => idle;
     StatusNotificationHandler201 := idle;
     AuthorizeHandler201 := fun _ _ => idle;
     TransactionEventHandler201 := fun _ _ => idle;
     GetCertificateStatusHandler201 := fun _ => idle;
     SignCertificateHandler201 := fun _ _ => idle;
     Get15118EvCertificateHandler201 := fun _ => idle;
     CertificateSignedResultHandler201 := idleResult;
     DataTransferCallMaker := fun _ _ => tt;
     BasicCallMaker := fun _ _ => tt;
     SecondsInt := fun d => (d / 1000000000)%Z |}.

Definition v16 : Router tokens :=
  NewV16Router absent okEmitter tt memoryTokenStore tt tt tt tt 90000000000 schemas.

Definition v201 : Router tokens :=
  NewV201Router absent okEmitter tt memoryTokenStore tt tt tt tt tt 90000000000.

(** A stand-in for [pem.Decode] and [x509.ParseCertificate] on inputs in
    which a block is two bytes: [C] or [K] for a certificate or a private
    key, and one byte of content; a certificate is its content byte, and
    the zero byte does not parse. *)
Definition decode (pemData : bytes) : option Block * bytes :=
  match pemData with
  | x43 :: content :: rest =>
      (Some {| Block_Type := "CERTIFICATE"; Block_Headers := ∅; Block_Bytes := [content] |},
       rest)
  | x4b :: content :: rest =>
      (Some {| Block_Type := "PRIVATE KEY"; Block_Headers := ∅; Block_Bytes := [content] |},
       rest)
  | _ => (None, pemData)
  end.

Definition parse (der : bytes) : result byte :=
  match der with
  | [x00] => Err (errorString "x509: malformed certificate")
  | [content] => Ok content
  | _ => Err (errorString "x509: trailing data")
  end.

(** Two certificates, a private key, and a certificate after it. *)
Definition chainThenKey : bytes := [x43; x01; x43; x02; x4b; x09; x43; x03].

(** A certificate, then one that does not parse. *)
Definition chainThenBad : bytes := [x43; x01; x43; x00; x43; x03].

End examples.

(** * Properties *)

Import mqtt handlers16.

(** ** The monad *)

Section Monad.
Context {World : Type}.

Lemma bind_Returns {A B} (m : M World A) (k : A -> M World B) s a s' :
  m s = (Returns a, s') -> (m ≫= k) s = k a s'.
Proof. intros Hm. unfold mbind, M_bind. now rewrite Hm. Qed.

Lemma bind_Panics {A B} (m : M World A) (k : A -> M World B) s reason s' :
  m s = (Panics reason, s') -> (m ≫= k) s = (Panics reason, s').
Proof. intros Hm. unfold mbind, M_bind. now rewrite Hm. Qed.

Lemma bind_mret_id {A} (m : M World A) s : (m ≫= mret) s = m s.
Proof.
  unfold mbind, M_bind, mret, M_ret.
  destruct (m s) as [[a | reason] s']; reflexivity.
Qed.

End Monad.

(** ** Error values *)

Lemma remapValidationError_always (err : error) :
  remapValidationError err = NewError ErrorFormatViolation err.
Proof. reflexivity. Qed.

(** [As_MqttError] stops at the first [*mqtt.Error] and otherwise follows
    [Unwrap]. *)
Lemma As_MqttError_Unwrap (err : error) :
  As_MqttError err =
    match err with
    | MqttError code _ => Some code
    | _ => Unwrap err ≫= As_MqttError
    end.
Proof. destruct err; reflexivity. Qed.

Lemma As_ValidationError_typed_nil :
  As_ValidationError (Some (ValidationErrorPtr None)) = true.
Proof. reflexivity. Qed.

(** ** [Router.Route] *)

Ltac route_with H1 H2 := unfold Route; rewrite H1, H2.

Section RouteProperties.
Context {World FS : Type} (lib : Codec FS).
Implicit Types (r : Router World) (message : Message) (emitter : Emitter).
Implicit Types (schemaFS : FS) (s : St World) (chargeStationId : string).

(** The run of a call whose handler returned a response that could be
    serialized: whatever response validation says, the envelope is handed
    to the emitter and the emitter's answer decides the result. *)
Lemma Route_call_handled r chargeStationId message emitter schemaFS s
    route req resp s1 responseJson :
  Type_ message = MessageTypeCall ->
  CallRoutes r !! Action message = Some route ->
  Validate lib (RequestPayload message) schemaFS (RequestSchema route) = None ->
  UnmarshalRequest lib (RequestPayload message) (NewRequest route) = Ok req ->
  Handler route chargeStationId req s = (Returns (resp, None), s1) ->
  Response_is_nil resp = false ->
  Marshal lib resp = Ok responseJson ->
  let out := callResult message responseJson in
  let v := Validate lib responseJson schemaFS (ResponseSchema route) in
  Route lib r chargeStationId message emitter schemaFS s =
    (Returns (sendingResult (emitter chargeStationId out)),
     {| emitted := emitted s1 ++ [(chargeStationId, out)];
        logged := logged s1 ++ responseWarning (Action message) v;
        world := world s1 |}).
Proof.
  intros Hty Hroute Hvalid Hdecode Hhandler Hnil Hmarshal out v.
  route_with Hty Hroute. rewrite Hvalid, Hdecode.
  rewrite (bind_Returns _ _ _ _ _ Hhandler). cbn beta iota.
  rewrite Hnil, Hmarshal. subst v.
  destruct (Validate lib responseJson schemaFS (ResponseSchema route)) as [verr |];
    unfold mbind, M_bind, log, Emit, mret, M_ret, responseWarning; cbn;
    fold out; destruct (emitter chargeStationId out); cbn;
    rewrite ?app_nil_r; try reflexivity.
  all: destruct s1; reflexivity.
Qed.

(** C1. A validator error on the request payload of a routed call is
    always remapped: whatever [schemas.Validate] returned, a JSON-schema
    validation error or any other error, [Route] wraps it in an MQTT error
    with code [FormatViolation]. The first half of the claim holds; an
    error that is not a validation error is not propagated unchanged,
    because [errors.As] is asked about the nil [validationErr] instead of
    [err]. *)
Theorem Route_call_request_validator_error r chargeStationId message emitter
    schemaFS s route err :
  Type_ message = MessageTypeCall ->
  CallRoutes r !! Action message = Some route ->
  Validate lib (RequestPayload message) schemaFS (RequestSchema route) = Some err ->
  let returned :=
    wrapError ("validating " ++ Action message ++ " request: ")
      (NewError ErrorFormatViolation err) in
  Route lib r chargeStationId message emitter schemaFS s = (Returns (Some returned), s)
  /\ As_MqttError returned = Some ErrorFormatViolation.
Proof.
  intros Hty Hroute Hinvalid returned. split; [| reflexivity].
  route_with Hty Hroute. rewrite Hinvalid. reflexivity.
Qed.

(** C2. When the response payload of a handled call fails validation
    against the route's response schema, [Route] does not abort: the
    [CallResult] envelope goes to the emitter and the returned value is
    the one a valid response gives; the failure only adds a
    [PropertyConstraintViolation] warning to the log. The statement holds
    for every validation outcome [v], so the emission and the result do
    not depend on it. *)
Theorem Route_call_invalid_response_still_emitted r chargeStationId message
    emitter schemaFS s route req resp s1 responseJson v :
  Type_ message = MessageTypeCall ->
  CallRoutes r !! Action message = Some route ->
  Validate lib (RequestPayload message) schemaFS (RequestSchema route) = None ->
  UnmarshalRequest lib (RequestPayload message) (NewRequest route) = Ok req ->
  Handler route chargeStationId req s = (Returns (resp, None), s1) ->
  Response_is_nil resp = false ->
  Marshal lib resp = Ok responseJson ->
  Validate lib responseJson schemaFS (ResponseSchema route) = v ->
  let out :=
    {| Type_ := MessageTypeCallResult; Action := Action message;
       MessageId := MessageId message; RequestPayload := [];
       ResponsePayload := responseJson; State := [] |} in
  let run := Route lib r chargeStationId message emitter schemaFS s in
  run.1 = Returns (sendingResult (emitter chargeStationId out))
  /\ emitted run.2 = (emitted s1 ++ [(chargeStationId, out)])%list
  /\ world run.2 = world s1
  /\ logged run.2 =
       (logged s1 ++
        match v with
        | Some verr =>
            [Printf "warning: response to %s is not valid: %v"
               [ArgString (Action message);
                ArgError (NewError ErrorPropertyConstraintViolation verr)]]
        | None => []
        end)%list.
Proof.
  intros Hty Hroute Hvalid Hdecode Hhandler Hnil Hmarshal Hv out run.
  subst run.
  rewrite (Route_call_handled _ _ _ _ _ _ _ _ _ _ _
             Hty Hroute Hvalid Hdecode Hhandler Hnil Hmarshal).
  rewrite Hv. repeat split.
Qed.

(** C3. A call whose action has no entry in [CallRoutes], and a call
    result whose action has no entry in [CallResultRoutes], leave the
    state as it was (nothing is emitted) and return an error that wraps an
    MQTT error with code [NotImplemented]. *)
Theorem Route_unknown_action_NotImplemented r chargeStationId message emitter
    schemaFS s :
  (Type_ message = MessageTypeCall /\ CallRoutes r !! Action message = None)
  \/ (Type_ message = MessageTypeCallResult
      /\ CallResultRoutes r !! Action message = None) ->
  exists err,
    Route lib r chargeStationId message emitter schemaFS s = (Returns (Some err), s)
    /\ As_MqttError err = Some ErrorNotImplemented.
Proof.
  intros [[Hty Hmiss] | [Hty Hmiss]]; route_with Hty Hmiss;
    eexists; split; reflexivity.
Qed.

(** C5. The envelope a handled call emits: type [CallResult], the
    message id and the action of the incoming envelope, and the JSON
    serialization of the handler's response as its response payload. It
    is the one call the emitter receives from [Route]. *)
Theorem Route_call_emits_CallResult r chargeStationId message emitter schemaFS s
    route req resp s1 responseJson :
  Type_ message = MessageTypeCall ->
  CallRoutes r !! Action message = Some route ->
  Validate lib (RequestPayload message) schemaFS (RequestSchema route) = None ->
  UnmarshalRequest lib (RequestPayload message) (NewRequest route) = Ok req ->
  Handler route chargeStationId req s = (Returns (resp, None), s1) ->
  Response_is_nil resp = false ->
  Marshal lib resp = Ok responseJson ->
  exists out,
    emitted (Route lib r chargeStationId message emitter schemaFS s).2 =
      (emitted s1 ++ [(chargeStationId, out)])%list
    /\ Type_ out = MessageTypeCallResult
    /\ MessageId out = MessageId message
    /\ Action out = Action message
    /\ ResponsePayload out = responseJson.
Proof.
  intros Hty Hroute Hvalid Hdecode Hhandler Hnil Hmarshal.
  exists (callResult message responseJson).
  rewrite (Route_call_handled _ _ _ _ _ _ _ _ _ _ _
             Hty Hroute Hvalid Hdecode Hhandler Hnil Hmarshal).
  repeat split.
Qed.

(** C6, as the code has it. A handler that returns a nil response and a
    nil error makes [Route] return the plain error
    [no response or error for <Action>], which holds no MQTT error and so
    carries no OCPP error code; [Route] adds nothing to what the handler
    left: no envelope is emitted. *)
Theorem Route_call_nil_response_plain_error r chargeStationId message emitter
    schemaFS s route req s1 :
  Type_ message = MessageTypeCall ->
  CallRoutes r !! Action message = Some route ->
  Validate lib (RequestPayload message) schemaFS (RequestSchema route) = None ->
  UnmarshalRequest lib (RequestPayload message) (NewRequest route) = Ok req ->
  Handler route chargeStationId req s = (Returns (NilResponse, None), s1) ->
  let returned := errorString ("no response or error for " ++ Action message) in
  Route lib r chargeStationId message emitter schemaFS s = (Returns (Some returned), s1)
  /\ As_MqttError returned = None.
Proof.
  intros Hty Hroute Hvalid Hdecode Hhandler returned. split; [| reflexivity].
  route_with Hty Hroute. rewrite Hvalid, Hdecode.
  now rewrite (bind_Returns _ _ _ _ _ Hhandler).
Qed.

(** C7, as the code has it. When the request payload of a routed call
    passes validation and [json.Unmarshal] fails with [err], [Route]
    returns [err] wrapped under the text
    [unmarshalling <Action> request payload: ], without a code of its own:
    the returned error is classified as [err] is, so it carries no OCPP
    error code unless [err] does. The handler is not called and nothing is
    emitted. *)
Theorem Route_call_decode_failure_wrapped r chargeStationId message emitter
    schemaFS s route err :
  Type_ message = MessageTypeCall ->
  CallRoutes r !! Action message = Some route ->
  Validate lib (RequestPayload message) schemaFS (RequestSchema route) = None ->
  UnmarshalRequest lib (RequestPayload message) (NewRequest route) = Err err ->
  let returned :=
    wrapError ("unmarshalling " ++ Action message ++ " request payload: ") err in
  Route lib r chargeStationId message emitter schemaFS s = (Returns (Some returned), s)
  /\ As_MqttError returned = As_MqttError err.
Proof.
  intros Hty Hroute Hvalid Hdecode returned. split; [| reflexivity].
  route_with Hty Hroute. now rewrite Hvalid, Hdecode.
Qed.

(** C8. A call result that passes route lookup, validation of both
    payloads and decoding of both payloads runs the route's result handler
    on the decoded request and response and on the [State] of the incoming
    envelope, as it is; the run of [Route] is that run of the handler. *)
Theorem Route_call_result_passes_State r chargeStationId message emitter schemaFS
    s route req resp :
  Type_ message = MessageTypeCallResult ->
  CallResultRoutes r !! Action message = Some route ->
  Validate lib (RequestPayload message) schemaFS (ResultRequestSchema route) = None ->
  Validate lib (ResponsePayload message) schemaFS (ResultResponseSchema route) = None ->
  UnmarshalRequest lib (RequestPayload message) (ResultNewRequest route) = Ok req ->
  UnmarshalResponse lib (ResponsePayload message) (ResultNewResponse route) = Ok resp ->
  Route lib r chargeStationId message emitter schemaFS s =
    ResultHandler route chargeStationId req resp (State message) s.
Proof.
  intros Hty Hroute Hreq Hresp Hdreq Hdresp.
  route_with Hty Hroute. rewrite Hreq, Hresp, Hdreq, Hdresp.
  unfold mbind, M_bind, mret, M_ret.
  destruct (ResultHandler route chargeStationId req resp (State message) s)
    as [[[err |] | reason] s']; reflexivity.
Qed.

(** C9. An envelope whose type is none of [Call], [CallResult] and
    [CallError] is ignored: [Route] returns nil and changes nothing. A
    [CallError] envelope changes nothing either and returns a non-nil
    error. *)
Theorem Route_other_types r chargeStationId message emitter schemaFS s :
  (Type_ message <> MessageTypeCall ->
   Type_ message <> MessageTypeCallResult ->
   Type_ message <> MessageTypeCallError ->
   Route lib r chargeStationId message emitter schemaFS s = (Returns None, s))
  /\ (Type_ message = MessageTypeCallError ->
      exists err,
        Route lib r chargeStationId message emitter schemaFS s = (Returns (Some err), s)).
Proof.
  split.
  - intros Hcall Hresult Herror. unfold Route.
    destruct (Type_ message) eqn:Hty; try congruence. reflexivity.
  - intros Hty. unfold Route. rewrite Hty. eexists; reflexivity.
Qed.

End RouteProperties.

(** ** The handlers *)

Section HandlerProperties.
Context {World Token : Type}.

(** C4. The v1.6 Authorize handler asks the token store for
    [("ISO14443", idTag)], after its log line. If the store returns an
    error, that error is returned with no response. Otherwise the response
    has [idTagInfo.status = Accepted] if and only if the store returned a
    token, and [Invalid] if and only if it returned none. *)
Theorem AuthorizeHandler_HandleCall_status (a : @AuthorizeHandler World Token)
    (chargeStationId : string) (req : ocpp16.AuthorizeJson) (s : St World)
    (tok : option Token) (err : option error) (s' : St World) :
  let line :=
    Printf "Charge station %s authorize token %s"
      [ArgString chargeStationId; ArgString (ocpp16.IdTag req)] in
  FindToken (AuthorizeHandler_TokenStore a) "ISO14443" (ocpp16.IdTag req)
    (log line s).2 = (Returns (tok, err), s') ->
  let run := AuthorizeHandler_HandleCall a chargeStationId (AuthorizeJsonPtr (Some req)) s in
  match err with
  | Some e => run = (Returns (NilResponse, Some e), s')
  | None =>
      exists status,
        run = (Returns (AuthorizeResponseJsonPtr
                          (Some {| ocpp16.IdTagInfo := {| ocpp16.Status := status |} |}),
                        None), s')
        /\ (status = ocpp16.AuthorizeResponseJsonIdTagInfoStatusAccepted <-> tok <> None)
        /\ (status = ocpp16.AuthorizeResponseJsonIdTagInfoStatusInvalid <-> tok = None)
  end.
Proof.
  intros line Hfind run. subst run line.
  unfold AuthorizeHandler_HandleCall, mbind, M_bind, log in *. cbn in Hfind |- *.
  rewrite Hfind.
  destruct err as [e |]; [reflexivity |].
  destruct tok as [t |]; eexists; (split; [reflexivity |]); split; split;
    congruence.
Qed.

(** C10. Given a request of dynamic type [*ocpp16.Reservation] and a
    response of dynamic type [*ocpp16.ReservationResponse], the
    reservation result handler returns (it does not panic), the error it
    returns is nil, and all it changes is the log, by one line; the
    charge station id and the state value have no influence. *)
Theorem ReservationResultHandler_HandleCallResult_nil (chargeStationId : string)
    (request : Request) (response : Response) (state : bytes) (s : St World) :
  is_ReservationPtr request = true ->
  is_ReservationResponsePtr response = true ->
  let run :=
    ReservationResultHandler_HandleCallResult chargeStationId request response state s in
  run.1 = Returns None
  /\ emitted run.2 = emitted s
  /\ world run.2 = world s
  /\ logged run.2 =
       (logged s ++
        [SlogInfo "Handling Result for reservation: "
           [("request", ArgRequest request); ("response", ArgResponse response)]])%list.
Proof.
  intros Hreq Hresp.
  destruct request; try discriminate Hreq.
  destruct response; try discriminate Hresp.
  repeat split.
Qed.

End HandlerProperties.

(** ** The properties on concrete envelopes *)

Section Concrete.
Import demo.

(** C1 on a schema file system without the request schema: the validator
    error is an I/O error, not a validation error, and [Route] still
    returns it as a [FormatViolation]. *)
Lemma Route_call_missing_schema_FormatViolation :
  Validate codec authorizeABC123 noSchemas "ocpp16/Authorize.json" = Some missing
  /\ As_ValidationError (Some missing) = false
  /\ Route codec (router memoryTokenStore) "cs001"
       (call "Authorize" "42" authorizeABC123) okEmitter noSchemas (start store) =
     (Returns (Some (wrapError "validating Authorize request: "
                       (MqttError ErrorFormatViolation missing))),
      start store).
Proof.
  split; [reflexivity |]. split; [reflexivity |].
  apply (Route_call_request_validator_error codec (router memoryTokenStore) "cs001"
           (call "Authorize" "42" authorizeABC123) okEmitter noSchemas (start store)
           (authorizeRoute memoryTokenStore) missing);
    reflexivity.
Defined.

(** C2 on a handler that returns a nil pointer inside a non-nil
    interface: the response marshals to [null], fails validation, and is
    emitted all the same. *)
Lemma Route_call_invalid_response_still_emitted_witness :
  let run :=
    Route codec (router memoryTokenStore) "cs001"
      (call "NilPointer" "42" authorizeABC123) okEmitter schemas (start store) in
  run.1 = Returns None
  /\ emitted run.2 =
       [("cs001",
         {| Type_ := MessageTypeCallResult; Action := "NilPointer"; MessageId := "42";
            RequestPayload := []; ResponsePayload := jsonNull; State := [] |})]
  /\ world run.2 = store
  /\ logged run.2 =
       [Printf "warning: response to %s is not valid: %v"
          [ArgString "NilPointer";
           ArgError (MqttError ErrorPropertyConstraintViolation
                       (ValidationErrorPtr (Some "missing properties: idTagInfo")))]].
Proof.
  apply (Route_call_invalid_response_still_emitted codec (router memoryTokenStore) "cs001"
           (call "NilPointer" "42" authorizeABC123) okEmitter schemas (start store)
           nilPointerRoute (AuthorizeJsonPtr (Some {| ocpp16.IdTag := "ABC123" |}))
           (AuthorizeResponseJsonPtr None) (start store) jsonNull
           (Some (ValidationErrorPtr (Some "missing properties: idTagInfo"))));
    reflexivity.
Defined.

(** C3 on the action [Frobnicate], as a call and as a call result. *)
Lemma Route_unknown_action_NotImplemented_witness :
  (exists err,
     Route codec (router memoryTokenStore) "cs001"
       (call "Frobnicate" "42" authorizeABC123) okEmitter schemas (start store) =
       (Returns (Some err), start store)
     /\ As_MqttError err = Some ErrorNotImplemented)
  /\ (exists err,
        Route codec (router memoryTokenStore) "cs001"
          (resultOf "Frobnicate" "42" scheduled accepted pendingCsr) okEmitter schemas
          (start store) =
          (Returns (Some err), start store)
        /\ As_MqttError err = Some ErrorNotImplemented).
Proof.
  split.
  - apply (Route_unknown_action_NotImplemented codec (router memoryTokenStore) "cs001"
             (call "Frobnicate" "42" authorizeABC123) okEmitter schemas (start store)).
    left. split; reflexivity.
  - apply (Route_unknown_action_NotImplemented codec (router memoryTokenStore) "cs001"
             (resultOf "Frobnicate" "42" scheduled accepted pendingCsr) okEmitter schemas
             (start store)).
    right. split; reflexivity.
Defined.

(** C4 on the in-memory store: a known tag is accepted, an unknown tag
    is invalid, and a store that fails gives its error and no response. *)
Lemma AuthorizeHandler_HandleCall_status_witness :
  (exists status,
     AuthorizeHandler_HandleCall {| AuthorizeHandler_TokenStore := memoryTokenStore |}
       "cs001" (AuthorizeJsonPtr (Some {| ocpp16.IdTag := "ABC123" |})) (start store) =
       (Returns (AuthorizeResponseJsonPtr
                   (Some {| ocpp16.IdTagInfo := {| ocpp16.Status := status |} |}),
                 None),
        {| emitted := [];
           logged := [Printf "Charge station %s authorize token %s"
                        [ArgString "cs001"; ArgString "ABC123"]];
           world := store |})
     /\ (status = ocpp16.AuthorizeResponseJsonIdTagInfoStatusAccepted <-> Some "ABC123" <> None)
     /\ (status = ocpp16.AuthorizeResponseJsonIdTagInfoStatusInvalid
         <-> Some "ABC123" = @None string))
  /\ AuthorizeHandler_HandleCall {| AuthorizeHandler_TokenStore := brokenTokenStore |}
       "cs001" (AuthorizeJsonPtr (Some {| ocpp16.IdTag := "ABC123" |})) (start store) =
     (Returns (NilResponse, Some (errorString "token store unavailable")),
      {| emitted := [];
         logged := [Printf "Charge station %s authorize token %s"
                      [ArgString "cs001"; ArgString "ABC123"]];
         world := store |}).
Proof.
  split.
  - apply (AuthorizeHandler_HandleCall_status
             {| AuthorizeHandler_TokenStore := memoryTokenStore |} "cs001"
             {| ocpp16.IdTag := "ABC123" |} (start store) (Some "ABC123") None).
    reflexivity.
  - apply (AuthorizeHandler_HandleCall_status
             {| AuthorizeHandler_TokenStore := brokenTokenStore |} "cs001"
             {| ocpp16.IdTag := "ABC123" |} (start store) None
             (Some (errorString "token store unavailable"))).
    reflexivity.
Defined.

(** C5 on the Authorize call of a known tag. *)
Lemma Route_call_emits_CallResult_witness :
  exists out,
    emitted (Route codec (router memoryTokenStore) "cs001"
               (call "Authorize" "42" authorizeABC123) okEmitter schemas (start store)).2 =
      [("cs001", out)]
    /\ Type_ out = MessageTypeCallResult
    /\ MessageId out = "42"
    /\ Action out = "Authorize"
    /\ ResponsePayload out = jsonField "idTagInfo" (jsonField "status" (jsonString "Accepted")).
Proof.
  apply (Route_call_emits_CallResult codec (router memoryTokenStore) "cs001"
           (call "Authorize" "42" authorizeABC123) okEmitter schemas (start store)
           (authorizeRoute memoryTokenStore)
           (AuthorizeJsonPtr (Some {| ocpp16.IdTag := "ABC123" |}))
           (AuthorizeResponseJsonPtr
              (Some {| ocpp16.IdTagInfo :=
                         {| ocpp16.Status := ocpp16.AuthorizeResponseJsonIdTagInfoStatusAccepted |} |}))
           {| emitted := [];
              logged := [Printf "Charge station %s authorize token %s"
                           [ArgString "cs001"; ArgString "ABC123"]];
              world := store |});
    reflexivity.
Defined.

(** C6 as claimed fails on a handler that returns nil and nil: the error
    [Route] returns holds no [InternalError]. *)
Lemma Route_call_nil_response_not_InternalError :
  Handler silentRoute "cs001" (AuthorizeJsonPtr (Some {| ocpp16.IdTag := "ABC123" |}))
    (start store) = (Returns (NilResponse, None), start store)
  /\ ~ exists err,
         (Route codec (router memoryTokenStore) "cs001"
            (call "Silent" "42" authorizeABC123) okEmitter schemas (start store)).1 =
           Returns (Some err)
         /\ As_MqttError err = Some ErrorInternalError.
Proof.
  split; [reflexivity |].
  intros [err [Hrun Hcode]]. vm_compute in Hrun.
  injection Hrun as <-. discriminate Hcode.
Qed.

Lemma Route_call_nil_response_plain_error_witness :
  Route codec (router memoryTokenStore) "cs001"
    (call "Silent" "42" authorizeABC123) okEmitter schemas (start store) =
    (Returns (Some (errorString "no response or error for Silent")), start store)
  /\ As_MqttError (errorString "no response or error for Silent") = None.
Proof.
  apply (Route_call_nil_response_plain_error codec (router memoryTokenStore) "cs001"
           (call "Silent" "42" authorizeABC123) okEmitter schemas (start store)
           silentRoute (AuthorizeJsonPtr (Some {| ocpp16.IdTag := "ABC123" |}))
           (start store));
    reflexivity.
Defined.

(** C7 as claimed fails on a payload that passes validation and cannot be
    decoded: the error [Route] returns holds no [FormatViolation]. *)
Lemma Route_call_decode_failure_not_FormatViolation :
  Validate codec authorize42 schemas "ocpp16/Authorize.json" = None
  /\ UnmarshalRequest codec authorize42 (NewRequest (authorizeRoute memoryTokenStore)) =
     Err notString
  /\ ~ exists err,
         (Route codec (router memoryTokenStore) "cs001"
            (call "Authorize" "42" authorize42) okEmitter schemas (start store)).1 =
           Returns (Some err)
         /\ As_MqttError err = Some ErrorFormatViolation.
Proof.
  split; [reflexivity |]. split; [reflexivity |].
  intros [err [Hrun Hcode]]. vm_compute in Hrun.
  injection Hrun as <-. discriminate Hcode.
Qed.

Lemma Route_call_decode_failure_wrapped_witness :
  Route codec (router memoryTokenStore) "cs001"
    (call "Authorize" "42" authorize42) okEmitter schemas (start store) =
    (Returns (Some (wrapError "unmarshalling Authorize request payload: " notString)),
     start store)
  /\ As_MqttError (wrapError "unmarshalling Authorize request payload: " notString) =
     As_MqttError notString.
Proof.
  apply (Route_call_decode_failure_wrapped codec (router memoryTokenStore) "cs001"
           (call "Authorize" "42" authorize42) okEmitter schemas (start store)
           (authorizeRoute memoryTokenStore) notString);
    reflexivity.
Defined.

(** C8 on a handler that records the state it is given: the blob of the
    envelope is what the handler's world holds afterwards. *)
Lemma Route_call_result_passes_State_witness :
  Route codec recordingRouter "cs001"
    (resultOf "CertificateSigned" "42" scheduled accepted pendingCsr) okEmitter schemas
    (start []) =
    (Returns None, {| emitted := []; logged := []; world := [pendingCsr] |}).
Proof.
  apply (Route_call_result_passes_State codec recordingRouter "cs001"
           (resultOf "CertificateSigned" "42" scheduled accepted pendingCsr) okEmitter schemas
           (start []) recordingRoute
           (OtherRequest "CertificateSignedRequestJson" [])
           (OtherResponse "CertificateSignedResponseJson" []));
    reflexivity.
Defined.

(** C9 on an envelope of type 7 and on a [CallError] envelope. *)
Lemma Route_other_types_witness :
  Route codec (router memoryTokenStore) "cs001"
    {| Type_ := MessageTypeOther 7; Action := "Authorize"; MessageId := "42";
       RequestPayload := authorizeABC123; ResponsePayload := []; State := [] |}
    okEmitter schemas (start store) = (Returns None, start store)
  /\ exists err,
       Route codec (router memoryTokenStore) "cs001"
         {| Type_ := MessageTypeCallError; Action := "Authorize"; MessageId := "42";
            RequestPayload := []; ResponsePayload := accepted; State := [] |}
         okEmitter schemas (start store) = (Returns (Some err), start store).
Proof.
  split.
  - apply (proj1 (Route_other_types codec (router memoryTokenStore) "cs001"
                    {| Type_ := MessageTypeOther 7; Action := "Authorize"; MessageId := "42";
                       RequestPayload := authorizeABC123; ResponsePayload := [];
                       State := [] |}
                    okEmitter schemas (start store)));
      discriminate.
  - apply (proj2 (Route_other_types codec (router memoryTokenStore) "cs001"
                    {| Type_ := MessageTypeCallError; Action := "Authorize"; MessageId := "42";
                       RequestPayload := []; ResponsePayload := accepted; State := [] |}
                    okEmitter schemas (start store))).
    reflexivity.
Defined.

(** C10 on a reservation and its accepted response, and on nil pointers
    of the two types. *)
Lemma ReservationResultHandler_HandleCallResult_nil_witness :
  (let run :=
     ReservationResultHandler_HandleCallResult "cs001" reservation7 reservationAccepted
       pendingCsr (start store) in
   run.1 = Returns None
   /\ emitted run.2 = []
   /\ world run.2 = store
   /\ logged run.2 =
        [SlogInfo "Handling Result for reservation: "
           [("request", ArgRequest reservation7);
            ("response", ArgResponse reservationAccepted)]])
  /\ (let run :=
        ReservationResultHandler_HandleCallResult "cs001" (ReservationPtr None)
          (ReservationResponsePtr None) [] (start store) in
      run.1 = Returns None
      /\ emitted run.2 = []
      /\ world run.2 = store
      /\ logged run.2 =
           [SlogInfo "Handling Result for reservation: "
              [("request", ArgRequest (ReservationPtr None));
               ("response", ArgResponse (ReservationResponsePtr None))]]).
Proof.
  split.
  - apply (ReservationResultHandler_HandleCallResult_nil "cs001" reservation7
             reservationAccepted pendingCsr (start store)); reflexivity.
  - apply (ReservationResultHandler_HandleCallResult_nil "cs001" (ReservationPtr None)
             (ReservationResponsePtr None) [] (start store)); reflexivity.
Defined.

(** The reservation handler behind a result route: the run of [Route] is
    the handler's one log line. *)
Example Route_reserve_now_result :
  Route codec (router memoryTokenStore) "cs001"
    (resultOf "ReserveNow" "42" scheduled accepted pendingCsr) okEmitter schemas
    (start store) =
    (Returns None,
     {| emitted := [];
        logged := [SlogInfo "Handling Result for reservation: "
                     [("request", ArgRequest (ResultNewRequest reservationRoute));
                      ("response", ArgResponse (ResultNewResponse reservationRoute))]];
        world := store |}).
Proof. reflexivity. Qed.

End Concrete.

(** * Further properties of the router *)

Section RouteMore.
Context {World FS : Type} (lib : Codec FS).
Implicit Types (r : Router World) (message : Message) (emitter : Emitter).
Implicit Types (schemaFS : FS) (s : St World) (chargeStationId : string).

(** Where a run of [Route] leaves the emitter trace when no handler of
    the router touches it: either as it was, and then a call did not end
    in a nil error, or longer by the one [CallResult] envelope, and then
    the result is what the emitter answered. *)
Lemma Route_emission r chargeStationId message emitter schemaFS s :
  routerKeepsTrace r ->
  let run := Route lib r chargeStationId message emitter schemaFS s in
  (emitted run.2 = emitted s
   /\ (Type_ message = MessageTypeCall -> run.1 <> Returns None))
  \/ (exists responseJson,
        Type_ message = MessageTypeCall
        /\ emitted run.2 =
             (emitted s ++ [(chargeStationId, callResult message responseJson)])%list
        /\ run.1 =
             Returns (sendingResult
                        (emitter chargeStationId (callResult message responseJson)))).
Proof.
  intros [Hcalls Hresults] run. subst run. unfold Route.
  destruct (Type_ message) eqn:Hty.
  - destruct (CallRoutes r !! Action message) as [route |] eqn:Hroute;
      [| left; split; [reflexivity | discriminate]].
    destruct (Validate lib (RequestPayload message) schemaFS (RequestSchema route));
      [left; split; [reflexivity | discriminate] |].
    destruct (UnmarshalRequest lib (RequestPayload message) (NewRequest route)) as [req | err];
      [| left; split; [reflexivity | discriminate]].
    pose proof (Hcalls _ _ Hroute chargeStationId req s) as Hkeep.
    unfold mbind, M_bind.
    destruct (Handler route chargeStationId req s) as [[[resp [err |]] | reason] s1];
      cbn in Hkeep |- *; try (left; split; [exact Hkeep | discriminate]).
    destruct (Response_is_nil resp); [left; split; [exact Hkeep | discriminate] |].
    destruct (Marshal lib resp) as [responseJson | err];
      [| left; split; [exact Hkeep | discriminate]].
    right. exists responseJson. split; [reflexivity |].
    destruct (Validate lib responseJson schemaFS (ResponseSchema route));
      unfold log, Emit, mret, M_ret; cbn; rewrite Hkeep;
      destruct (emitter chargeStationId (callResult message responseJson));
      split; reflexivity.
  - left. split; [| discriminate].
    destruct (CallResultRoutes r !! Action message) as [route |] eqn:Hroute;
      [| reflexivity].
    destruct (Validate lib (RequestPayload message) schemaFS (ResultRequestSchema route));
      [reflexivity |].
    destruct (Validate lib (ResponsePayload message) schemaFS (ResultResponseSchema route));
      [reflexivity |].
    destruct (UnmarshalRequest lib (RequestPayload message) (ResultNewRequest route))
      as [req | err]; [| reflexivity].
    destruct (UnmarshalResponse lib (ResponsePayload message) (ResultNewResponse route))
      as [resp | err]; [| reflexivity].
    pose proof (Hresults _ _ Hroute chargeStationId req resp (State message) s) as Hkeep.
    unfold mbind, M_bind.
    destruct (ResultHandler route chargeStationId req resp (State message) s)
      as [[[err |] | reason] s1]; exact Hkeep.
  - left. split; [reflexivity | discriminate].
  - left. split; [reflexivity | discriminate].
Qed.

(** X1. When the handler of a routed call returns an error, [Route]
    returns that very error, unwrapped, and discards any response the
    handler returned with it; the state is the one the handler left, so
    [Route] emits nothing. *)
Theorem Route_call_handler_error_propagates r chargeStationId message emitter
    schemaFS s route req resp err s1 :
  Type_ message = MessageTypeCall ->
  CallRoutes r !! Action message = Some route ->
  Validate lib (RequestPayload message) schemaFS (RequestSchema route) = None ->
  UnmarshalRequest lib (RequestPayload message) (NewRequest route) = Ok req ->
  Handler route chargeStationId req s = (Returns (resp, Some err), s1) ->
  Route lib r chargeStationId message emitter schemaFS s = (Returns (Some err), s1).
Proof.
  intros Hty Hroute Hvalid Hdecode Hhandler.
  route_with Hty Hroute. rewrite Hvalid, Hdecode.
  now rewrite (bind_Returns _ _ _ _ _ Hhandler).
Qed.

(** X2. With handlers that do not emit, one run of [Route] puts at most
    one envelope on the emitter trace and removes none. An envelope it
    puts there answers a call: it goes to the charge station the message
    came from, has type [CallResult] and carries the message id and the
    action of the incoming envelope. Call results, call errors and
    envelopes of other types emit nothing. *)
Theorem Route_emits_at_most_one r chargeStationId message emitter schemaFS s :
  routerKeepsTrace r ->
  exists outs,
    emitted (Route lib r chargeStationId message emitter schemaFS s).2 =
      (emitted s ++ outs)%list
    /\ length outs <= 1
    /\ (Type_ message <> MessageTypeCall -> outs = [])
    /\ forall station out,
         (station, out) ∈ outs ->
         station = chargeStationId
         /\ Type_ out = MessageTypeCallResult
         /\ MessageId out = MessageId message
         /\ Action out = Action message.
Proof.
  intros Hkeeps.
  destruct (Route_emission r chargeStationId message emitter schemaFS s Hkeeps)
    as [[Hsame _] | [responseJson [Hty [Hone _]]]].
  - exists []. rewrite app_nil_r.
    split; [exact Hsame |]. split; [cbn; lia |]. split; [reflexivity |].
    intros station out Hin. inversion Hin.
  - exists [(chargeStationId, callResult message responseJson)].
    split; [exact Hone |]. split; [cbn; lia |]. split; [congruence |].
    intros station out Hin.
    apply list_elem_of_singleton in Hin. injection Hin as -> ->.
    repeat split.
Qed.

(** X3. With handlers that do not emit, a nil error from [Route] on a
    call means the call has been answered: exactly one envelope, the
    [CallResult] for this message, was handed to the emitter, and the
    emitter accepted it. *)
Theorem Route_call_nil_means_answered r chargeStationId message emitter schemaFS s :
  routerKeepsTrace r ->
  Type_ message = MessageTypeCall ->
  (Route lib r chargeStationId message emitter schemaFS s).1 = Returns None ->
  exists responseJson,
    emitted (Route lib r chargeStationId message emitter schemaFS s).2 =
      (emitted s ++ [(chargeStationId, callResult message responseJson)])%list
    /\ emitter chargeStationId (callResult message responseJson) = None.
Proof.
  intros Hkeeps Hty Hnil.
  destruct (Route_emission r chargeStationId message emitter schemaFS s Hkeeps)
    as [[_ Hnot] | [responseJson [_ [Hone Hres]]]].
  - now destruct (Hnot Hty).
  - exists responseJson. split; [exact Hone |].
    rewrite Hres in Hnil.
    destruct (emitter chargeStationId (callResult message responseJson));
      [discriminate Hnil | reflexivity].
Qed.

(** X4. With handlers that do not emit and an emitter that accepts the
    envelope it is given, an error from [Route] means no answer went out:
    the emitter trace is as it was, so the caller can answer with a
    [CallError] without answering twice. *)
Theorem Route_error_means_unanswered r chargeStationId message emitter schemaFS s err :
  routerKeepsTrace r ->
  (forall out, emitter chargeStationId out = None) ->
  (Route lib r chargeStationId message emitter schemaFS s).1 = Returns (Some err) ->
  emitted (Route lib r chargeStationId message emitter schemaFS s).2 = emitted s.
Proof.
  intros Hkeeps Haccepts Herr.
  destruct (Route_emission r chargeStationId message emitter schemaFS s Hkeeps)
    as [[Hsame _] | [responseJson [_ [_ Hres]]]]; [exact Hsame |].
  rewrite Hres, Haccepts in Herr. discriminate Herr.
Qed.

(** X5. The echoed request of a call result is validated without any
    remapping: a validator error is returned wrapped under
    [validating <Action> request: ] and is classified as the validator's
    error is; neither the response is looked at nor the handler run. *)
Theorem Route_call_result_request_not_remapped r chargeStationId message emitter
    schemaFS s route err :
  Type_ message = MessageTypeCallResult ->
  CallResultRoutes r !! Action message = Some route ->
  Validate lib (RequestPayload message) schemaFS (ResultRequestSchema route) = Some err ->
  let returned := wrapError ("validating " ++ Action message ++ " request: ") err in
  Route lib r chargeStationId message emitter schemaFS s = (Returns (Some returned), s)
  /\ As_MqttError returned = As_MqttError err.
Proof.
  intros Hty Hroute Hinvalid returned. split; [| reflexivity].
  route_with Hty Hroute. now rewrite Hinvalid.
Qed.

(** X6. A validator error on the response payload of a call result is
    returned as a [FormatViolation], whatever kind of error it is, wrapped
    under [validating <Action> response: ]; the handler is not run. *)
Theorem Route_call_result_response_remapped r chargeStationId message emitter
    schemaFS s route err :
  Type_ message = MessageTypeCallResult ->
  CallResultRoutes r !! Action message = Some route ->
  Validate lib (RequestPayload message) schemaFS (ResultRequestSchema route) = None ->
  Validate lib (ResponsePayload message) schemaFS (ResultResponseSchema route) = Some err ->
  let returned :=
    wrapError ("validating " ++ Action message ++ " response: ")
      (NewError ErrorFormatViolation err) in
  Route lib r chargeStationId message emitter schemaFS s = (Returns (Some returned), s)
  /\ As_MqttError returned = Some ErrorFormatViolation.
Proof.
  intros Hty Hroute Hvalid Hinvalid returned. split; [| reflexivity].
  route_with Hty Hroute. now rewrite Hvalid, Hinvalid.
Qed.

(** X7. When the response payload of a call result cannot be decoded,
    the decoder's error is formatted into the text of the returned error
    and not wrapped: the returned error unwraps to nothing and carries no
    OCPP error code, even if the decoder's error did. A decode failure of
    the echoed request, one step earlier, keeps the chain. *)
Theorem Route_call_result_response_decode_flattened r chargeStationId message
    emitter schemaFS s route req err :
  Type_ message = MessageTypeCallResult ->
  CallResultRoutes r !! Action message = Some route ->
  Validate lib (RequestPayload message) schemaFS (ResultRequestSchema route) = None ->
  Validate lib (ResponsePayload message) schemaFS (ResultResponseSchema route) = None ->
  UnmarshalRequest lib (RequestPayload message) (ResultNewRequest route) = Ok req ->
  UnmarshalResponse lib (ResponsePayload message) (ResultNewResponse route) = Err err ->
  exists returned,
    Route lib r chargeStationId message emitter schemaFS s = (Returns (Some returned), s)
    /\ Unwrap returned = None
    /\ As_MqttError returned = None
    /\ As_ValidationError (Some returned) = false.
Proof.
  intros Hty Hroute Hreq Hresp Hdreq Hdresp.
  route_with Hty Hroute. rewrite Hreq, Hresp, Hdreq, Hdresp.
  eexists. repeat split.
Qed.

End RouteMore.

(** * Further properties of the handlers *)

Section HandlersMore.
Context {World Token : Type}.
Implicit Types (a : @AuthorizeHandler World Token) (s : St World).

(** The run of the Authorize handler on a request it can read, by what
    the store answers. *)
Lemma AuthorizeHandler_HandleCall_run a chargeStationId req s :
  AuthorizeHandler_HandleCall a chargeStationId (AuthorizeJsonPtr (Some req)) s =
    match FindToken (AuthorizeHandler_TokenStore a) "ISO14443" (ocpp16.IdTag req)
            (authorizeLogged chargeStationId req s) with
    | (Returns (tok, Some err), s1) => (Returns (NilResponse, Some err), s1)
    | (Returns (tok, None), s1) =>
        (Returns
           (AuthorizeResponseJsonPtr
              (Some {| ocpp16.IdTagInfo :=
                         {| ocpp16.Status :=
                              match tok with
                              | Some _ => ocpp16.AuthorizeResponseJsonIdTagInfoStatusAccepted
                              | None => ocpp16.AuthorizeResponseJsonIdTagInfoStatusInvalid
                              end |} |}),
            None), s1)
    | (Panics reason, s1) => (Panics reason, s1)
    end.
Proof.
  unfold AuthorizeHandler_HandleCall, mbind, M_bind, log, authorizeLogged. cbn.
  destruct (FindToken _ _ _ _) as [[[tok [err |]] | reason] s1]; reflexivity.
Qed.

(** X8. The Authorize handler asserts the type of its request without a
    check: on the nil interface, on a request of any other type and on a
    nil pointer it panics before it logs or asks the token store. *)
Theorem AuthorizeHandler_HandleCall_panics a chargeStationId (request : Request) s :
  (forall req, request <> AuthorizeJsonPtr (Some req)) ->
  exists reason,
    AuthorizeHandler_HandleCall a chargeStationId request s = (Panics reason, s).
Proof.
  intros Hother. destruct request as [| [req |] | p | typeName fields];
    try (eexists; reflexivity).
  now destruct (Hother req).
Qed.

(** X9. Whenever the Authorize handler returns, it returns either an
    error and a nil response, or no error and a response whose status is
    [Accepted] or [Invalid]: never nil and nil, never a response beside
    an error, never another status. *)
Theorem AuthorizeHandler_HandleCall_response_xor_error a chargeStationId
    (request : Request) s (resp : Response) (err : option error) s' :
  AuthorizeHandler_HandleCall a chargeStationId request s = (Returns (resp, err), s') ->
  (exists e, err = Some e /\ resp = NilResponse)
  \/ (err = None
      /\ exists status,
           resp = AuthorizeResponseJsonPtr
                    (Some {| ocpp16.IdTagInfo := {| ocpp16.Status := status |} |})
           /\ (status = ocpp16.AuthorizeResponseJsonIdTagInfoStatusAccepted
               \/ status = ocpp16.AuthorizeResponseJsonIdTagInfoStatusInvalid)).
Proof.
  destruct request as [| [req |] | p | typeName fields]; try discriminate.
  rewrite AuthorizeHandler_HandleCall_run.
  destruct (FindToken _ _ _ _) as [[[tok [e |]] | reason] s1]; try discriminate.
  - intros [= <- <- <-]. left. eauto.
  - intros [= <- <- <-]. right. split; [reflexivity |].
    eexists. split; [reflexivity |]. destruct tok; auto.
Qed.

(** X10. Over a token store that only reads, the Authorize handler
    always returns on a request it can read, and all it changes is the
    log, by its one line: nothing is emitted and the world is as it was. *)
Theorem AuthorizeHandler_HandleCall_only_logs a chargeStationId
    (req : ocpp16.AuthorizeJson) s :
  readOnly (AuthorizeHandler_TokenStore a) ->
  exists resp err,
    AuthorizeHandler_HandleCall a chargeStationId (AuthorizeJsonPtr (Some req)) s =
      (Returns (resp, err), authorizeLogged chargeStationId req s).
Proof.
  intros Hread. rewrite AuthorizeHandler_HandleCall_run.
  destruct (Hread "ISO14443" (ocpp16.IdTag req) (authorizeLogged chargeStationId req s))
    as [[tok [err |]] ->]; eauto.
Qed.

(** Over such a store the handler keeps the emitter trace on every
    request, also when it panics. *)
Lemma AuthorizeHandler_HandleCall_keeps_trace a :
  readOnly (AuthorizeHandler_TokenStore a) ->
  callKeepsTrace (AuthorizeHandler_HandleCall a).
Proof.
  intros Hread chargeStationId request s.
  destruct request as [| [req |] | p | typeName fields]; try reflexivity.
  destruct (AuthorizeHandler_HandleCall_only_logs a chargeStationId req s Hread)
    as [resp [err ->]]. reflexivity.
Qed.

(** X11. The reservation result handler panics exactly when one of its
    two type assertions fails, and then it has changed nothing; it never
    returns an error. *)
Theorem ReservationResultHandler_HandleCallResult_panics (chargeStationId : string)
    (request : Request) (response : Response) (state : bytes) s :
  let run :=
    @ReservationResultHandler_HandleCallResult World chargeStationId request response
      state s in
  ((exists reason, run = (Panics reason, s))
   <-> is_ReservationPtr request && is_ReservationResponsePtr response = false)
  /\ forall err, run.1 <> Returns (Some err).
Proof.
  destruct request as [| p | p | typeName fields];
    destruct response as [| q | q | typeName' fields']; cbn; split;
    try (split; [reflexivity | intros _; eexists; reflexivity]);
    try discriminate.
  split; [intros [reason Hrun]; discriminate Hrun | discriminate].
Qed.

End HandlersMore.

(** * The route tables *)

Section RoutersProperties.
Import routers.
Context {World Token FS : Type}.
Context {Clock TransactionStore TariffService CertificateValidationService : Type}.
Context {CertificateSignerService EvCertificateProvider CallMaker : Type}.
Context (pkg : @Absent World Token FS Clock TransactionStore TariffService
                 CertificateValidationService CertificateSignerService
                 EvCertificateProvider CallMaker).
Context (lib : Codec FS).
Context (emitter : Emitter) (clk : Clock) (tokenStore : TokenStore World Token).
Context (transactionStore : TransactionStore) (tariffService : TariffService).
Context (certValidationService : CertificateValidationService).
Context (certSignerService : CertificateSignerService).
Context (certProviderService : EvCertificateProvider).
Context (heartbeatInterval : Z) (schemaFS : FS).

Let v16 : Router World :=
  NewV16Router pkg emitter clk tokenStore transactionStore certValidationService
    certSignerService certProviderService heartbeatInterval schemaFS.

Let v201 : Router World :=
  NewV201Router pkg emitter clk tokenStore transactionStore tariffService
    certValidationService certSignerService certProviderService heartbeatInterval.

Let vendor : string := "org.openchargealliance.iso15118pnc".

Ltac table_entry H :=
  repeat (apply lookup_insert_Some in H as [[<- <-] | [_ H]]; [repeat split |]);
  apply lookup_singleton_Some in H as [<- <-]; repeat split.

(** X12. The actions the two routers serve, whatever services they are
    built from: eight calls and the [DataTransfer] result for OCPP 1.6,
    eight calls and the [CertificateSigned] result for OCPP 2.0.1. *)
Theorem NewRouter_actions :
  dom (CallRoutes v16) =
    list_to_set ["BootNotification"; "Heartbeat"; "StatusNotification"; "Authorize";
                 "StartTransaction"; "StopTransaction"; "MeterValues"; "DataTransfer"]
  /\ dom (CallResultRoutes v16) = {[ "DataTransfer" ]}
  /\ dom (CallRoutes v201) =
       list_to_set ["BootNotification"; "Heartbeat"; "StatusNotification"; "Authorize";
                    "TransactionEvent"; "GetCertificateStatus"; "SignCertificate";
                    "Get15118EVCertificate"]
  /\ dom (CallResultRoutes v201) = {[ "CertificateSigned" ]}.
Proof.
  subst v16 v201. unfold NewV16Router, NewV201Router. cbn [CallRoutes CallResultRoutes].
  rewrite !dom_insert_L, !dom_singleton_L. cbn. repeat split; set_solver.
Qed.

(** X13. Every call route of either router names its schemas after its
    action: [ocpp16/<Action>.json] and [ocpp16/<Action>Response.json] for
    OCPP 1.6, [ocpp201/<Action>Request.json] and
    [ocpp201/<Action>Response.json] for OCPP 2.0.1. *)
Theorem NewRouter_call_schemas (action : string) (route : CallRoute World) :
  (CallRoutes v16 !! action = Some route ->
   RequestSchema route = "ocpp16/" ++ action ++ ".json"
   /\ ResponseSchema route = "ocpp16/" ++ action ++ "Response.json")
  /\ (CallRoutes v201 !! action = Some route ->
      RequestSchema route = "ocpp201/" ++ action ++ "Request.json"
      /\ ResponseSchema route = "ocpp201/" ++ action ++ "Response.json").
Proof.
  split; intros Hroute; subst v16 v201; unfold NewV16Router, NewV201Router in Hroute;
    cbn [CallRoutes] in Hroute; table_entry Hroute.
Qed.

(** X14. The routes the OCPP 1.6 router tunnels through [DataTransfer]
    under the Plug-and-Charge vendor id are routes of the OCPP 2.0.1
    router: each tunnelled action has the request factory and the two
    schemas of the 2.0.1 route of that name, and the same handler, except
    that the handler of [SignCertificate] is given the data-transfer call
    maker in place of the basic one. The tunnelled result routes are the
    result routes of the 2.0.1 router. *)
Theorem NewV16Router_tunnel_agrees_with_v201 :
  let tunnel :=
    pncCallRoutes pkg tokenStore certValidationService certSignerService
      certProviderService (dataTransferCallMaker pkg emitter) in
  (Handler <$> CallRoutes v16 !! "DataTransfer") =
    Some (DataTransferHandler16 pkg schemaFS {[ vendor := tunnel ]})
  /\ (ResultHandler <$> CallResultRoutes v16 !! "DataTransfer") =
       Some (DataTransferResultHandler16 pkg schemaFS
               {[ vendor := CallResultRoutes v201 ]})
  /\ forall action route,
       tunnel !! action = Some route ->
       exists direct,
         CallRoutes v201 !! action = Some direct
         /\ NewRequest route = NewRequest direct
         /\ RequestSchema route = RequestSchema direct
         /\ ResponseSchema route = ResponseSchema direct
         /\ (action <> "SignCertificate" -> Handler route = Handler direct)
         /\ (action = "SignCertificate" ->
             Handler route =
               SignCertificateHandler201 pkg certSignerService
                 (dataTransferCallMaker pkg emitter)
             /\ Handler direct =
                  SignCertificateHandler201 pkg certSignerService
                    (basicCallMaker pkg emitter)).
Proof.
  intros tunnel. split; [reflexivity |]. split; [reflexivity |].
  intros action route Hroute. subst tunnel. unfold pncCallRoutes in Hroute.
  repeat (apply lookup_insert_Some in Hroute as [[<- <-] | [_ Hroute]];
          [eexists; split; [reflexivity |]; repeat split; congruence |]).
  apply lookup_singleton_Some in Hroute as [<- <-].
  eexists; split; [reflexivity |]; repeat split; congruence.
Qed.

(** X15. The [DataTransfer] result route of the OCPP 1.6 router names no
    schema, so [Route] validates the echoed request of a [DataTransfer]
    result against the schema with the empty name. When the validator has
    no such schema, the result is refused with the validator's error and
    the result handler is not run. *)
Theorem NewV16Router_DataTransfer_result_schema (chargeStationId : string)
    (message : Message) (sender : Emitter) (s : St World) (err : error) :
  Type_ message = MessageTypeCallResult ->
  Action message = "DataTransfer" ->
  Validate lib (RequestPayload message) schemaFS EmptyString = Some err ->
  Route lib v16 chargeStationId message sender schemaFS s =
    (Returns (Some (wrapError "validating DataTransfer request: " err)), s).
Proof.
  intros Hty Haction Hinvalid. unfold Route. rewrite Hty, Haction.
  subst v16. unfold NewV16Router. cbn [CallResultRoutes].
  rewrite lookup_singleton_eq. cbn [ResultRequestSchema]. now rewrite Hinvalid.
Qed.

(** X16. An Authorize call through the OCPP 1.6 router, end to end: when
    the payload passes validation and decodes to a request with some id
    tag, the token store is asked once, and, if it answers without an
    error, the [CallResult] that goes out carries the serialized response
    whose status is [Accepted] if the store found a token and [Invalid]
    if it did not. *)
Theorem NewV16Router_Authorize (chargeStationId : string) (message : Message)
    (sender : Emitter) (s : St World) (req : ocpp16.AuthorizeJson)
    (tok : option Token) (s1 : St World) (responseJson : bytes) :
  Type_ message = MessageTypeCall ->
  Action message = "Authorize" ->
  Validate lib (RequestPayload message) schemaFS "ocpp16/Authorize.json" = None ->
  UnmarshalRequest lib (RequestPayload message)
    (AuthorizeJsonPtr (Some {| ocpp16.IdTag := EmptyString |})) =
    Ok (AuthorizeJsonPtr (Some req)) ->
  FindToken tokenStore "ISO14443" (ocpp16.IdTag req)
    (authorizeLogged chargeStationId req s) = (Returns (tok, None), s1) ->
  Marshal lib
    (AuthorizeResponseJsonPtr
       (Some {| ocpp16.IdTagInfo :=
                  {| ocpp16.Status :=
                       match tok with
                       | Some _ => ocpp16.AuthorizeResponseJsonIdTagInfoStatusAccepted
                       | None => ocpp16.AuthorizeResponseJsonIdTagInfoStatusInvalid
                       end |} |})) = Ok responseJson ->
  let out := callResult message responseJson in
  let run := Route lib v16 chargeStationId message sender schemaFS s in
  run.1 = Returns (sendingResult (sender chargeStationId out))
  /\ emitted run.2 = (emitted s1 ++ [(chargeStationId, out)])%list
  /\ world run.2 = world s1.
Proof.
  intros Hty Haction Hvalid Hdecode Hfind Hmarshal out run. subst run out.
  assert (Hroute : CallRoutes v16 !! Action message =
                   Some {| NewRequest := AuthorizeJsonPtr (Some {| ocpp16.IdTag := EmptyString |});
                           RequestSchema := "ocpp16/Authorize.json";
                           ResponseSchema := "ocpp16/AuthorizeResponse.json";
                           Handler := AuthorizeHandler_HandleCall
                                        {| AuthorizeHandler_TokenStore := tokenStore |} |})
    by (rewrite Haction; reflexivity).
  erewrite (Route_call_handled lib v16 chargeStationId message sender schemaFS s
              _ _ _ s1 responseJson Hty Hroute Hvalid Hdecode); [repeat split | | |].
  - cbn [Handler]. rewrite AuthorizeHandler_HandleCall_run. cbn. now rewrite Hfind.
  - reflexivity.
  - exact Hmarshal.
Qed.

End RoutersProperties.

(** * Certificates from PEM data *)

Section CertificatesProperties.
Import cmd.
Context {Certificate : Type}.
Context (pem_Decode : bytes -> option Block * bytes).
Context (x509_ParseCertificate : bytes -> result Certificate).

Local Abbreviation parseCertificate := (parseCertificate pem_Decode x509_ParseCertificate).
Local Abbreviation parseCertificatesFrom := (parseCertificatesFrom pem_Decode x509_ParseCertificate).
Local Abbreviation parseCertificates := (parseCertificates pem_Decode x509_ParseCertificate).
Local Abbreviation startsWith := (startsWith pem_Decode x509_ParseCertificate).
Local Abbreviation stopsAt := (stopsAt pem_Decode).

Lemma parseCertificate_certificate pemData block next cert :
  pem_Decode pemData = (Some block, next) ->
  Block_Type block = "CERTIFICATE" ->
  x509_ParseCertificate (Block_Bytes block) = Ok cert ->
  parseCertificate pemData = (Some cert, next, None).
Proof.
  intros Hdecode Htype Hparse. unfold cmd.parseCertificate.
  now rewrite Hdecode, Htype, Hparse.
Qed.

Lemma parseCertificate_stop pemData :
  stopsAt pemData -> exists next, parseCertificate pemData = (None, next, None).
Proof.
  unfold cmd.stopsAt, cmd.parseCertificate.
  destruct (pem_Decode pemData) as [[block |] next]; [| eauto].
  intros Hother. apply String.eqb_neq in Hother. rewrite Hother. eauto.
Qed.

(** What [parseCertificate] returns tells what was next in the input. *)
Lemma parseCertificate_cases pemData :
  match parseCertificate pemData with
  | (Some cert, next, None) =>
      exists block,
        pem_Decode pemData = (Some block, next)
        /\ Block_Type block = "CERTIFICATE"
        /\ x509_ParseCertificate (Block_Bytes block) = Ok cert
  | (None, next, None) => stopsAt pemData
  | (None, next, Some err) =>
      exists block,
        pem_Decode pemData = (Some block, next)
        /\ Block_Type block = "CERTIFICATE"
        /\ x509_ParseCertificate (Block_Bytes block) = Err err
  | (Some _, _, Some _) => False
  end.
Proof.
  unfold cmd.parseCertificate, cmd.stopsAt.
  destruct (pem_Decode pemData) as [[block |] next]; [| exact I].
  destruct (String.eqb (Block_Type block) "CERTIFICATE") eqn:Htype; cbn.
  - apply String.eqb_eq in Htype.
    destruct (x509_ParseCertificate (Block_Bytes block)) eqn:Hparse; eauto.
  - now apply String.eqb_neq in Htype.
Qed.

Lemma parseCertificatesFrom_more_fuel fuel fuel' pemData certs result :
  parseCertificatesFrom fuel pemData certs = Some result ->
  fuel <= fuel' ->
  parseCertificatesFrom fuel' pemData certs = Some result.
Proof.
  revert fuel' pemData certs.
  induction fuel as [| fuel IH]; intros fuel' pemData certs Hrun Hle; [discriminate |].
  destruct fuel' as [| fuel']; [lia |]. cbn in Hrun |- *.
  destruct (parseCertificate pemData) as [[[cert |] next] [err |]]; try exact Hrun.
  apply IH; [exact Hrun | lia].
Qed.

Lemma parseCertificatesFrom_startsWith pemData certs rest :
  startsWith pemData certs rest ->
  forall fuel gathered,
    parseCertificatesFrom (length certs + fuel) pemData gathered =
      parseCertificatesFrom fuel rest (gathered ++ certs).
Proof.
  induction 1 as [pemData | pemData block next cert certs rest Hdecode Htype Hparse _ IH];
    intros fuel gathered.
  - now rewrite app_nil_r.
  - cbn. rewrite (parseCertificate_certificate _ _ _ _ Hdecode Htype Hparse).
    rewrite IH. now rewrite <- app_assoc.
Qed.

(** X17. [parseCertificates] returns on every input, given that
    [pem.Decode] consumes input with every block it finds: one more round
    than the input has bytes is enough, and more rounds change nothing. *)
Theorem parseCertificates_returns (pemData : bytes) :
  decodeConsumes pem_Decode ->
  exists result,
    forall fuel, length pemData < fuel -> parseCertificates fuel pemData = Some result.
Proof.
  intros Hconsumes.
  assert (Hloop : forall fuel pemData certs,
             length pemData < fuel ->
             exists result, parseCertificatesFrom fuel pemData certs = Some result).
  { induction fuel as [| fuel IH]; intros data certs Hlen; [lia |]. cbn.
    pose proof (parseCertificate_cases data) as Hcases.
    destruct (parseCertificate data) as [[[cert |] next] [err |]]; eauto.
    destruct Hcases as [block [Hdecode _]].
    apply IH. apply Hconsumes in Hdecode. lia. }
  destruct (Hloop (S (length pemData)) pemData [] ltac:(lia)) as [result Hresult].
  exists result. intros fuel Hfuel.
  apply (parseCertificatesFrom_more_fuel _ _ _ _ _ Hresult). lia.
Qed.

(** X18. [parseCertificates] reads the certificate blocks the input
    starts with and stops, without an error, at the first point where no
    block follows or where the next block is of another type: it returns
    the certificates read so far, in input order, and looks at nothing
    after that point. An input with no block, or one that starts with
    another block, gives no certificate and no error. *)
Theorem parseCertificates_stops_silently (pemData : bytes) (certs : list Certificate)
    (rest : bytes) (fuel : nat) :
  startsWith pemData certs rest ->
  stopsAt rest ->
  length certs < fuel ->
  parseCertificates fuel pemData = Some (certs, None).
Proof.
  intros Hstarts Hstops Hfuel. unfold cmd.parseCertificates.
  replace fuel with (length certs + S (fuel - S (length certs))) by lia.
  rewrite (parseCertificatesFrom_startsWith _ _ _ Hstarts). cbn.
  destruct (parseCertificate_stop _ Hstops) as [next ->]. reflexivity.
Qed.

(** X19. When a certificate block fails to parse, [parseCertificates]
    returns the parser's error and a nil slice: the certificates read
    before the failing block are dropped. *)
Theorem parseCertificates_error_drops_all (pemData : bytes) (certs : list Certificate)
    (rest : bytes) (block : Block) (next : bytes) (err : error) (fuel : nat) :
  startsWith pemData certs rest ->
  pem_Decode rest = (Some block, next) ->
  Block_Type block = "CERTIFICATE" ->
  x509_ParseCertificate (Block_Bytes block) = Err err ->
  length certs < fuel ->
  parseCertificates fuel pemData = Some ([], Some err).
Proof.
  intros Hstarts Hdecode Htype Hparse Hfuel. unfold cmd.parseCertificates.
  replace fuel with (length certs + S (fuel - S (length certs))) by lia.
  rewrite (parseCertificatesFrom_startsWith _ _ _ Hstarts). cbn.
  unfold cmd.parseCertificate. now rewrite Hdecode, Htype, Hparse.
Qed.

(** X20. Whatever [parseCertificates] returns is accounted for by the
    input: certificates returned without an error are the parsed
    certificate blocks the input starts with, up to a point where it
    stops; an error comes with no certificate and is the parser's error
    on a certificate block that follows such a start. *)
Theorem parseCertificates_sound (pemData : bytes) (fuel : nat)
    (certs : list Certificate) (err : option error) :
  parseCertificates fuel pemData = Some (certs, err) ->
  match err with
  | None => exists rest, startsWith pemData certs rest /\ stopsAt rest
  | Some e =>
      certs = []
      /\ exists read rest block next,
           startsWith pemData read rest
           /\ pem_Decode rest = (Some block, next)
           /\ Block_Type block = "CERTIFICATE"
           /\ x509_ParseCertificate (Block_Bytes block) = Err e
  end.
Proof.
  unfold cmd.parseCertificates.
  assert (Hloop : forall fuel data gathered certs err,
             parseCertificatesFrom fuel data gathered = Some (certs, err) ->
             match err with
             | None =>
                 exists read rest,
                   certs = (gathered ++ read)%list
                   /\ startsWith data read rest /\ stopsAt rest
             | Some e =>
                 certs = []
                 /\ exists read rest block next,
                      startsWith data read rest
                      /\ pem_Decode rest = (Some block, next)
                      /\ Block_Type block = "CERTIFICATE"
                      /\ x509_ParseCertificate (Block_Bytes block) = Err e
             end).
  { clear. induction fuel as [| fuel IH]; intros data gathered certs err Hrun;
      [discriminate |]. cbn in Hrun.
    pose proof (parseCertificate_cases data) as Hcases.
    destruct (parseCertificate data) as [[[cert |] next] [e |]].
    - destruct Hcases.
    - destruct Hcases as [block [Hdecode [Htype Hparse]]].
      specialize (IH _ _ _ _ Hrun). destruct err as [e |].
      + destruct IH as [-> [read [rest [blk [nxt [Hstarts Hfail]]]]]].
        split; [reflexivity |]. exists (cert :: read), rest, blk, nxt.
        split; [| exact Hfail]. econstructor; eassumption.
      + destruct IH as [read [rest [-> [Hstarts Hstops]]]].
        exists (cert :: read), rest. rewrite <- app_assoc.
        split; [reflexivity |]. split; [| exact Hstops]. econstructor; eassumption.
    - injection Hrun as <- <-. destruct Hcases as [block [Hdecode [Htype Hparse]]].
      split; [reflexivity |]. exists [], data, block, next.
      split; [constructor | auto].
    - injection Hrun as <- <-. exists [], data. rewrite app_nil_r.
      split; [reflexivity |]. split; [constructor | exact Hcases]. }
  intros Hrun. specialize (Hloop _ _ _ _ _ Hrun). destruct err as [e |]; [exact Hloop |].
  destruct Hloop as [read [rest [-> Hrest]]]. exists rest. exact Hrest.
Qed.

End CertificatesProperties.

(** * The further properties on concrete inputs *)

Section ConcreteMore.
Import demo examples routers cmd.

Lemma memoryTokenStore_readOnly : readOnly memoryTokenStore.
Proof. intros tokenType id s. eexists. reflexivity. Qed.

Lemma brokenTokenStore_readOnly : readOnly brokenTokenStore.
Proof. intros tokenType id s. eexists. reflexivity. Qed.

Lemma ReservationResultHandler_keeps_trace {World} :
  resultKeepsTrace (@ReservationResultHandler_HandleCallResult World).
Proof.
  intros chargeStationId request response state s.
  destruct request; try reflexivity. destruct response; reflexivity.
Qed.

Lemma router_keeps_trace tokenStore :
  readOnly tokenStore -> routerKeepsTrace (router tokenStore).
Proof.
  intros Hread. split; intros action route Hroute; unfold router in Hroute;
    cbn [CallRoutes CallResultRoutes] in Hroute.
  - apply lookup_insert_Some in Hroute as [[_ <-] | [_ Hroute]].
    { now apply AuthorizeHandler_HandleCall_keeps_trace. }
    apply lookup_insert_Some in Hroute as [[_ <-] | [_ Hroute]].
    { intros ? ? ?. reflexivity. }
    apply lookup_singleton_Some in Hroute as [_ <-]. intros ? ? ?. reflexivity.
  - apply lookup_singleton_Some in Hroute as [_ <-].
    apply ReservationResultHandler_keeps_trace.
Qed.

Lemma decode_consumes : decodeConsumes decode.
Proof.
  intros pemData block rest Hdecode. unfold decode in Hdecode.
  destruct pemData as [| tag data]; [discriminate |].
  destruct data as [| content data]; destruct tag; try discriminate;
    injection Hdecode as _ <-; cbn; lia.
Qed.

(** X1 on a token store that fails. *)
Lemma Route_call_handler_error_propagates_witness :
  Route codec (router brokenTokenStore) "cs001"
    (call "Authorize" "42" authorizeABC123) okEmitter schemas (start store) =
    (Returns (Some (errorString "token store unavailable")),
     authorizeLogged "cs001" {| ocpp16.IdTag := "ABC123" |} (start store)).
Proof.
  apply (Route_call_handler_error_propagates codec (router brokenTokenStore) "cs001"
           (call "Authorize" "42" authorizeABC123) okEmitter schemas (start store)
           (authorizeRoute brokenTokenStore)
           (AuthorizeJsonPtr (Some {| ocpp16.IdTag := "ABC123" |})) NilResponse);
    reflexivity.
Defined.

(** X2 on an Authorize call and on a reservation result. *)
Lemma Route_emits_at_most_one_witness :
  (exists outs,
     emitted (Route codec (router memoryTokenStore) "cs001"
                (call "Authorize" "42" authorizeABC123) okEmitter schemas (start store)).2 =
       ([] ++ outs)%list
     /\ length outs <= 1
     /\ (MessageTypeCall <> MessageTypeCall -> outs = [])
     /\ forall station out,
          (station, out) ∈ outs ->
          station = "cs001" /\ Type_ out = MessageTypeCallResult
          /\ MessageId out = "42" /\ Action out = "Authorize")
  /\ (exists outs,
        emitted (Route codec (router memoryTokenStore) "cs001"
                   (resultOf "ReserveNow" "42" scheduled accepted pendingCsr) okEmitter
                   schemas (start store)).2 =
          ([] ++ outs)%list
        /\ length outs <= 1
        /\ (MessageTypeCallResult <> MessageTypeCall -> outs = [])
        /\ forall station out,
             (station, out) ∈ outs ->
             station = "cs001" /\ Type_ out = MessageTypeCallResult
             /\ MessageId out = "42" /\ Action out = "ReserveNow").
Proof.
  split.
  - exact (Route_emits_at_most_one codec (router memoryTokenStore) "cs001"
             (call "Authorize" "42" authorizeABC123) okEmitter schemas (start store)
             (router_keeps_trace _ memoryTokenStore_readOnly)).
  - exact (Route_emits_at_most_one codec (router memoryTokenStore) "cs001"
             (resultOf "ReserveNow" "42" scheduled accepted pendingCsr) okEmitter schemas
             (start store) (router_keeps_trace _ memoryTokenStore_readOnly)).
Defined.

(** X3 on the Authorize call of a known tag. *)
Lemma Route_call_nil_means_answered_witness :
  exists responseJson,
    emitted (Route codec (router memoryTokenStore) "cs001"
               (call "Authorize" "42" authorizeABC123) okEmitter schemas (start store)).2 =
      [("cs001", callResult (call "Authorize" "42" authorizeABC123) responseJson)]
    /\ okEmitter "cs001" (callResult (call "Authorize" "42" authorizeABC123) responseJson) =
       None.
Proof.
  apply (Route_call_nil_means_answered codec (router memoryTokenStore) "cs001"
           (call "Authorize" "42" authorizeABC123) okEmitter schemas (start store)
           (router_keeps_trace _ memoryTokenStore_readOnly));
    reflexivity.
Defined.

(** X4 on a call whose handler returns nothing. *)
Lemma Route_error_means_unanswered_witness :
  emitted (Route codec (router memoryTokenStore) "cs001"
             (call "Silent" "42" authorizeABC123) okEmitter schemas (start store)).2 = [].
Proof.
  apply (Route_error_means_unanswered codec (router memoryTokenStore) "cs001"
           (call "Silent" "42" authorizeABC123) okEmitter schemas (start store)
           (errorString "no response or error for Silent")
           (router_keeps_trace _ memoryTokenStore_readOnly));
    reflexivity.
Defined.

(** X5 on a reservation result whose echoed request is an Authorize
    request. *)
Lemma Route_call_result_request_not_remapped_witness :
  let returned :=
    wrapError "validating ReserveNow request: "
      (ValidationErrorPtr (Some "missing properties: reservationId")) in
  Route codec (router memoryTokenStore) "cs001"
    (resultOf "ReserveNow" "42" authorizeABC123 accepted pendingCsr) okEmitter schemas
    (start store) = (Returns (Some returned), start store)
  /\ As_MqttError returned = None.
Proof.
  apply (Route_call_result_request_not_remapped codec (router memoryTokenStore) "cs001"
           (resultOf "ReserveNow" "42" authorizeABC123 accepted pendingCsr) okEmitter schemas
           (start store) reservationRoute
           (ValidationErrorPtr (Some "missing properties: reservationId")));
    reflexivity.
Defined.

(** X6 on a reservation result whose response is [null]. *)
Lemma Route_call_result_response_remapped_witness :
  let returned :=
    wrapError "validating ReserveNow response: "
      (MqttError ErrorFormatViolation (ValidationErrorPtr (Some "missing properties: status"))) in
  Route codec (router memoryTokenStore) "cs001"
    (resultOf "ReserveNow" "42" scheduled jsonNull pendingCsr) okEmitter schemas
    (start store) = (Returns (Some returned), start store)
  /\ As_MqttError returned = Some ErrorFormatViolation.
Proof.
  apply (Route_call_result_response_remapped codec (router memoryTokenStore) "cs001"
           (resultOf "ReserveNow" "42" scheduled jsonNull pendingCsr) okEmitter schemas
           (start store) reservationRoute
           (ValidationErrorPtr (Some "missing properties: status")));
    reflexivity.
Defined.

(** X7 on a reservation result whose status is a number. *)
Lemma Route_call_result_response_decode_flattened_witness :
  exists returned,
    Route strictCodec (router memoryTokenStore) "cs001"
      (resultOf "ReserveNow" "42" scheduled status7 pendingCsr) okEmitter schemas
      (start store) = (Returns (Some returned), start store)
    /\ Unwrap returned = None
    /\ As_MqttError returned = None
    /\ As_ValidationError (Some returned) = false.
Proof.
  apply (Route_call_result_response_decode_flattened strictCodec (router memoryTokenStore)
           "cs001" (resultOf "ReserveNow" "42" scheduled status7 pendingCsr) okEmitter
           schemas (start store) reservationRoute (ResultNewRequest reservationRoute)
           (errorString
              "json: cannot unmarshal number into Go struct field status of type string"));
    reflexivity.
Defined.

(** X8 on the nil interface, on a nil pointer and on a reservation. *)
Lemma AuthorizeHandler_HandleCall_panics_witness :
  (exists reason,
     AuthorizeHandler_HandleCall {| AuthorizeHandler_TokenStore := memoryTokenStore |}
       "cs001" NilRequest (start store) = (Panics reason, start store))
  /\ (exists reason,
        AuthorizeHandler_HandleCall {| AuthorizeHandler_TokenStore := memoryTokenStore |}
          "cs001" (AuthorizeJsonPtr None) (start store) = (Panics reason, start store))
  /\ (exists reason,
        AuthorizeHandler_HandleCall {| AuthorizeHandler_TokenStore := memoryTokenStore |}
          "cs001" reservation7 (start store) = (Panics reason, start store)).
Proof.
  repeat split;
    apply (AuthorizeHandler_HandleCall_panics
             {| AuthorizeHandler_TokenStore := memoryTokenStore |} "cs001");
    discriminate.
Defined.

(** X9 on a tag the store does not know. *)
Lemma AuthorizeHandler_HandleCall_response_xor_error_witness :
  (exists e, @None error = Some e
             /\ AuthorizeResponseJsonPtr
                  (Some {| ocpp16.IdTagInfo :=
                             {| ocpp16.Status :=
                                  ocpp16.AuthorizeResponseJsonIdTagInfoStatusInvalid |} |}) =
                NilResponse)
  \/ (@None error = None
      /\ exists status,
           AuthorizeResponseJsonPtr
             (Some {| ocpp16.IdTagInfo :=
                        {| ocpp16.Status :=
                             ocpp16.AuthorizeResponseJsonIdTagInfoStatusInvalid |} |}) =
           AuthorizeResponseJsonPtr
             (Some {| ocpp16.IdTagInfo := {| ocpp16.Status := status |} |})
           /\ (status = ocpp16.AuthorizeResponseJsonIdTagInfoStatusAccepted
               \/ status = ocpp16.AuthorizeResponseJsonIdTagInfoStatusInvalid)).
Proof.
  apply (AuthorizeHandler_HandleCall_response_xor_error
           {| AuthorizeHandler_TokenStore := memoryTokenStore |} "cs001"
           (AuthorizeJsonPtr (Some {| ocpp16.IdTag := "XYZ789" |})) (start store)
           _ _ (authorizeLogged "cs001" {| ocpp16.IdTag := "XYZ789" |} (start store))).
  reflexivity.
Defined.

(** X10 on the in-memory store. *)
Lemma AuthorizeHandler_HandleCall_only_logs_witness :
  exists resp err,
    AuthorizeHandler_HandleCall {| AuthorizeHandler_TokenStore := memoryTokenStore |}
      "cs001" (AuthorizeJsonPtr (Some {| ocpp16.IdTag := "ABC123" |})) (start store) =
      (Returns (resp, err),
       {| emitted := [];
          logged := [Printf "Charge station %s authorize token %s"
                       [ArgString "cs001"; ArgString "ABC123"]];
          world := store |}).
Proof.
  apply (AuthorizeHandler_HandleCall_only_logs
           {| AuthorizeHandler_TokenStore := memoryTokenStore |} "cs001"
           {| ocpp16.IdTag := "ABC123" |} (start store) memoryTokenStore_readOnly).
Defined.

(** X13 on the [Heartbeat] route of either router. *)
Lemma NewRouter_call_schemas_witness :
  (exists route,
     CallRoutes v16 !! "Heartbeat" = Some route
     /\ RequestSchema route = "ocpp16/Heartbeat.json"
     /\ ResponseSchema route = "ocpp16/HeartbeatResponse.json")
  /\ (exists route,
        CallRoutes v201 !! "Heartbeat" = Some route
        /\ RequestSchema route = "ocpp201/HeartbeatRequest.json"
        /\ ResponseSchema route = "ocpp201/HeartbeatResponse.json").
Proof.
  split; eexists; (split; [reflexivity |]).
  - apply (proj1 (NewRouter_call_schemas absent okEmitter tt memoryTokenStore tt tt tt tt tt
                    90000000000%Z schemas "Heartbeat" _)).
    reflexivity.
  - apply (proj2 (NewRouter_call_schemas absent okEmitter tt memoryTokenStore tt tt tt tt tt
                    90000000000%Z schemas "Heartbeat" _)).
    reflexivity.
Defined.

(** X14 on the tunnelled [Authorize] and [SignCertificate] routes. *)
Lemma NewV16Router_tunnel_agrees_with_v201_witness :
  let tunnel :=
    pncCallRoutes absent memoryTokenStore tt tt tt (dataTransferCallMaker absent okEmitter) in
  (exists route direct,
     tunnel !! "Authorize" = Some route
     /\ CallRoutes v201 !! "Authorize" = Some direct
     /\ NewRequest route = NewRequest direct
     /\ RequestSchema route = RequestSchema direct
     /\ ResponseSchema route = ResponseSchema direct
     /\ Handler route = Handler direct)
  /\ (exists route direct,
        tunnel !! "SignCertificate" = Some route
        /\ CallRoutes v201 !! "SignCertificate" = Some direct
        /\ NewRequest route = NewRequest direct
        /\ RequestSchema route = RequestSchema direct
        /\ ResponseSchema route = ResponseSchema direct).
Proof.
  intros tunnel.
  pose proof (NewV16Router_tunnel_agrees_with_v201 absent okEmitter tt memoryTokenStore tt tt
                tt tt tt 90000000000%Z schemas) as [_ [_ Hagree]].
  split.
  - destruct (Hagree "Authorize" _ eq_refl)
      as [direct [Hdirect [Hnew [Hreq [Hresp [Hhandler _]]]]]].
    eexists _, direct. split; [reflexivity |].
    repeat split; try assumption. apply Hhandler. discriminate.
  - destruct (Hagree "SignCertificate" _ eq_refl)
      as [direct [Hdirect [Hnew [Hreq [Hresp _]]]]].
    eexists _, direct. split; [reflexivity |]. repeat split; assumption.
Defined.

(** X15 on a [DataTransfer] result: the schema files have no entry with
    the empty name. *)
Lemma NewV16Router_DataTransfer_result_schema_witness :
  Route codec v16 "cs001" (resultOf "DataTransfer" "42" scheduled accepted pendingCsr)
    okEmitter schemas (start store) =
    (Returns (Some (wrapError "validating DataTransfer request: "
                      (errorString "open : file does not exist"))),
     start store).
Proof.
  apply (NewV16Router_DataTransfer_result_schema absent codec okEmitter tt memoryTokenStore
           tt tt tt tt 90000000000%Z schemas "cs001"
           (resultOf "DataTransfer" "42" scheduled accepted pendingCsr) okEmitter
           (start store));
    reflexivity.
Defined.

(** X16 on the Authorize call of a known tag. *)
Lemma NewV16Router_Authorize_witness :
  let out :=
    {| Type_ := MessageTypeCallResult; Action := "Authorize"; MessageId := "42";
       RequestPayload := [];
       ResponsePayload := jsonField "idTagInfo" (jsonField "status" (jsonString "Accepted"));
       State := [] |} in
  let run :=
    Route codec v16 "cs001" (call "Authorize" "42" authorizeABC123) okEmitter schemas
      (start store) in
  run.1 = Returns None
  /\ emitted run.2 = [("cs001", out)]
  /\ world run.2 = store.
Proof.
  apply (NewV16Router_Authorize absent codec okEmitter tt memoryTokenStore tt tt tt tt
           90000000000%Z schemas "cs001" (call "Authorize" "42" authorizeABC123) okEmitter
           (start store) {| ocpp16.IdTag := "ABC123" |} (Some "ABC123")
           (authorizeLogged "cs001" {| ocpp16.IdTag := "ABC123" |} (start store)));
    reflexivity.
Defined.

(** X17 on two certificates followed by a private key. *)
Lemma parseCertificates_returns_witness :
  exists result,
    forall fuel,
      length chainThenKey < fuel ->
      parseCertificates decode parse fuel chainThenKey = Some result.
Proof.
  apply (parseCertificates_returns decode parse chainThenKey decode_consumes).
Defined.

(** X18 on the same input: the certificate after the private key is not
    read. *)
Lemma parseCertificates_stops_silently_witness :
  parseCertificates decode parse 9 chainThenKey = Some ([x01; x02], None)
  /\ parseCertificates decode parse 1 [] = Some ([], None).
Proof.
  split.
  - apply (parseCertificates_stops_silently decode parse chainThenKey [x01; x02]
             [x4b; x09; x43; x03] 9).
    + repeat (econstructor; try reflexivity).
    + discriminate.
    + cbn. lia.
  - apply (parseCertificates_stops_silently decode parse [] [] [] 1).
    + constructor.
    + exact I.
    + cbn. lia.
Defined.

(** X19 on a certificate followed by one that does not parse. *)
Lemma parseCertificates_error_drops_all_witness :
  parseCertificates decode parse 7 chainThenBad =
    Some ([], Some (errorString "x509: malformed certificate")).
Proof.
  apply (parseCertificates_error_drops_all decode parse chainThenBad [x01]
           [x43; x00; x43; x03]
           {| Block_Type := "CERTIFICATE"; Block_Headers := ∅; Block_Bytes := [x00] |}
           [x43; x03] (errorString "x509: malformed certificate") 7).
  - repeat (econstructor; try reflexivity).
  - reflexivity.
  - reflexivity.
  - reflexivity.
  - cbn. lia.
Defined.

(** X20 on what the run on the first input returned. *)
Lemma parseCertificates_sound_witness :
  exists rest,
    startsWith decode parse chainThenKey [x01; x02] rest /\ stopsAt decode rest.
Proof.
  apply (parseCertificates_sound decode parse chainThenKey 9 [x01; x02] None).
  reflexivity.
Defined.

End ConcreteMore.
